(** * Gospel-Language-Study: the alignment index and its parsing boundary

    A shallow embedding of

    - [backend/src/gls/domain/models.py]: the dataclasses [WordAlignment],
      [SegmentAlignment] and [Alignment], with the three time queries
      [find_segment_at_time], [find_word_at_time] and
      [get_segment_index_at_time];
    - [backend/src/gls/infrastructure/storage/talk_storage.py]:
      [FileAlignmentRepository._parse_alignment].

    Python floats are IEEE 754 binary64 values; they are modelled by the
    Standard Library's [spec_float] with its comparison [SFcompare], so that
    NaN, the infinities and the signed zeros behave as they do in Python.
    The methods of [Alignment] are written in a small state monad over
    [self]; the parser is written in an error monad whose errors are the
    Python exceptions it can raise. *)

From Stdlib Require Import ZArith Floats.SpecFloat Floats.PrimFloat Floats.FloatOps.
From stdpp Require Import gmap strings list.

Set Warnings "-inexact-float,-register-all".
Set Default Proof Using "Type".

(* ===================================================================== *)
(** * Python floats *)
(* ===================================================================== *)

Module PyFloat.

(** A Python [float]. Every binary64 value is a [spec_float]; the results
    below hold for all of [spec_float], hence for every Python float. *)
Definition float : Type := spec_float.

(** [x <= y] and [x < y] on floats: false as soon as one side is NaN. *)
Definition le (x y : float) : bool := SFleb x y.
Definition lt (x y : float) : bool := SFltb x y.

(** A float literal of the source text, rounded to binary64 as Python's
    parser rounds it. *)
Definition lit (f : PrimFloat.float) : float := Prim2SF f.

Definition nan : float := S754_nan.

(** The chained comparison [lo <= x <= hi], that is
    [lo <= x and x <= hi]. *)
Definition between (lo x hi : float) : bool := le lo x && le x hi.

End PyFloat.

Abbreviation float := PyFloat.float.

(* ===================================================================== *)
(** * Domain models ([domain/models.py]) *)
(* ===================================================================== *)

(** [class Language(str, Enum)] *)
Inductive Language : Set :=
| ENGLISH | MANDARIN_SIMPLIFIED | MANDARIN_TRADITIONAL | CZECH | SPANISH
| RUSSIAN | PORTUGUESE | FRENCH | GERMAN | KOREAN | JAPANESE.

Definition Language_value (l : Language) : string :=
  match l with
  | ENGLISH => "eng" | MANDARIN_SIMPLIFIED => "zhs"
  | MANDARIN_TRADITIONAL => "zht" | CZECH => "ces" | SPANISH => "spa"
  | RUSSIAN => "rus" | PORTUGUESE => "por" | FRENCH => "fra"
  | GERMAN => "deu" | KOREAN => "kor" | JAPANESE => "jpn"
  end.

(** [class TalkId]: a frozen dataclass around one string. *)
Record TalkId : Set := mkTalkId { value : string }.

(** The dataclasses do not check the types of their fields: the
    annotations say [str] and [float], and the parser stores whatever the
    JSON document holds. The records are therefore parametric in the types
    [Str] and [Num] of their fields; the queries below take them at the
    annotated types [string] and [float]. *)
Module WordAlignment.
Record t {Str Num : Type} : Type := mk {
  word : Str;
  start_time : Num;
  end_time : Num;
  confidence : Num;
}.
Arguments t : clear implicits.
End WordAlignment.

Module SegmentAlignment.
Record t {Str Num : Type} : Type := mk {
  segment_id : Str;
  text : Str;
  start_time : Num;
  end_time : Num;
  words : list (WordAlignment.t Str Num);
}.
Arguments t : clear implicits.
End SegmentAlignment.

Module Alignment.
Record t {Str Num : Type} : Type := mk {
  talk_id : TalkId;
  language : Language;
  segments : list (SegmentAlignment.t Str Num);
}.
Arguments t : clear implicits.
End Alignment.

(** The models at their annotated types. *)
Abbreviation Word := (WordAlignment.t string float).
Abbreviation Segment := (SegmentAlignment.t string float).
Abbreviation Index := (Alignment.t string float).

(* ===================================================================== *)
(** * Methods: computations over [self] *)
(* ===================================================================== *)

(** A method body reads attributes of [self] and could assign to them: it
    is a function from the object before the call to its result and the
    object after the call. *)
Module Method.

Definition t (Self A : Type) : Type := Self → A * Self.

Definition ret {Self A} (x : A) : t Self A := λ self, (x, self).

Definition bind {Self A B} (m : t Self A) (k : A → t Self B) : t Self B :=
  λ self, let '(x, self') := m self in k x self'.

(** [self.field] *)
Definition attr {Self A} (field : Self → A) : t Self A :=
  λ self, (field self, self).

(** What one iteration of a [for] body does: fall through to the next
    element, or [return r] out of the enclosing method. *)
Inductive flow (R : Type) : Type :=
| Next
| Return (r : R).
Arguments Next {R}.
Arguments Return {R} r.

(** [for x in xs: body] followed by the statements [after]. *)
Fixpoint for_in {Self X R} (xs : list X)
    (body : X → t Self (flow R)) (after : t Self R) : t Self R :=
  match xs with
  | [] => after
  | x :: xs' =>
      bind (body x) (λ c,
        match c with
        | Return r => ret r
        | Next => for_in xs' body after
        end)
  end.

(** The value a call returns, and the object it leaves behind. *)
Definition result {Self A} (m : t Self A) (self : Self) : A := (m self).1.
Definition final {Self A} (m : t Self A) (self : Self) : Self := (m self).2.

End Method.

#[global] Instance method_ret {Self} : MRet (Method.t Self) :=
  λ A, Method.ret.
#[global] Instance method_bind {Self} : MBind (Method.t Self) :=
  λ A B k m, Method.bind m k.

(** [enumerate(xs)] *)
Definition enumerate {A} (xs : list A) : list (nat * A) :=
  imap (λ i x, (i, x)) xs.

(** ** The three queries of [class Alignment] *)

Definition find_segment_at_time (time : float)
    : Method.t Index (option Segment) :=
  segments ← Method.attr Alignment.segments;
  Method.for_in segments
    (λ segment,
       if PyFloat.between (SegmentAlignment.start_time segment) time
                          (SegmentAlignment.end_time segment)
       then mret (Method.Return (Some segment))
       else mret Method.Next)
    (mret None).

(** [if not segment] tests for [None]: a dataclass instance defines
    neither [__bool__] nor [__len__] and is always true. *)
Definition find_word_at_time (time : float)
    : Method.t Index (option Word) :=
  segment ← find_segment_at_time time;
  match segment with
  | None => mret None
  | Some segment =>
      Method.for_in (SegmentAlignment.words segment)
        (λ word,
           if PyFloat.between (WordAlignment.start_time word) time
                              (WordAlignment.end_time word)
           then mret (Method.Return (Some word))
           else mret Method.Next)
        (mret None)
  end.

Definition get_segment_index_at_time (time : float)
    : Method.t Index (option nat) :=
  segments ← Method.attr Alignment.segments;
  Method.for_in (enumerate segments)
    (λ '(i, segment),
       if PyFloat.between (SegmentAlignment.start_time segment) time
                          (SegmentAlignment.end_time segment)
       then mret (Method.Return (Some i))
       else mret Method.Next)
    (mret None).

(* ===================================================================== *)
(** * The parsing boundary ([infrastructure/storage/talk_storage.py]) *)
(* ===================================================================== *)

(** What [json.loads] produces, and so what [_parse_alignment] receives as
    [data: dict[str, Any]] and finds inside it. *)
Inductive pyobj : Type :=
| PyNone
| PyBool (b : bool)
| PyInt (z : Z)
| PyFloat (f : float)
| PyStr (s : string)
| PyList (l : list pyobj)
| PyDict (d : gmap string pyobj).

(** The exceptions the parser's expressions can raise. *)
Inductive exn : Set :=
| KeyError (key : string)
| TypeError
| AttributeError.

Inductive result (A : Type) : Type :=
| Ok (a : A)
| Raise (e : exn).
Arguments Ok {A} a.
Arguments Raise {A} e.

#[global] Instance result_ret : MRet result := λ A, Ok.
#[global] Instance result_bind : MBind result :=
  λ A B k m, match m with Ok a => k a | Raise e => Raise e end.

(** [o.get(key, default)]: only a dict has the attribute [get]. *)
Definition py_get (o : pyobj) (key : string) (default : pyobj)
    : result pyobj :=
  match o with
  | PyDict d =>
      match d !! key with
      | Some v => Ok v
      | None => Ok default
      end
  | _ => Raise AttributeError
  end.

(** [o[key]] for a string [key]: a dict looks the key up, and every other
    value refuses a string subscript. *)
Definition py_getitem (o : pyobj) (key : string) : result pyobj :=
  match o with
  | PyDict d =>
      match d !! key with
      | Some v => Ok v
      | None => Raise (KeyError key)
      end
  | _ => Raise TypeError
  end.

(** The characters of a string, as Python yields them: one-character
    strings. *)
Fixpoint py_chars (s : string) : list pyobj :=
  match s with
  | EmptyString => []
  | String c s' => PyStr (String c EmptyString) :: py_chars s'
  end.

(** The elements [for x in o] visits: those of a list, the keys of a dict,
    the characters of a string; the other values are not iterable. The
    parser raises on the first key or character it meets, so the order in
    which a dict yields its keys is not observable through it. *)
Definition py_iter (o : pyobj) : result (list pyobj) :=
  match o with
  | PyList l => Ok l
  | PyDict d => Ok (PyStr <$> (map_to_list d).*1)
  | PyStr s => Ok (py_chars s)
  | PyNone | PyBool _ | PyInt _ | PyFloat _ => Raise TypeError
  end.

(** A [for] loop whose body appends one element to the list [acc]. *)
Fixpoint for_append {X Y} (xs : list X) (body : X → result Y)
    (acc : list Y) : result (list Y) :=
  match xs with
  | [] => Ok acc
  | x :: xs' => y ← body x; for_append xs' body (acc ++ [y])
  end.

(** The literal [1.0]. *)
Definition one : float := Eval vm_compute in PyFloat.lit 1.0.

(** The records the parser builds hold the JSON values as they are. *)
Abbreviation RawWord := (WordAlignment.t pyobj pyobj).
Abbreviation RawSegment := (SegmentAlignment.t pyobj pyobj).
Abbreviation RawAlignment := (Alignment.t pyobj pyobj).

(** The element expression of the list comprehension: the keyword
    arguments of [WordAlignment(...)] are evaluated from left to right. *)
Definition parse_word (w : pyobj) : result RawWord :=
  word ← py_getitem w "word";
  start_time ← py_getitem w "start_time";
  end_time ← py_getitem w "end_time";
  confidence ← py_get w "confidence" (PyFloat one);
  mret (WordAlignment.mk _ _ word start_time end_time confidence).

(** The body of the loop over the segments. *)
Definition parse_segment (seg_data : pyobj) : result RawSegment :=
  ws ← py_get seg_data "words" (PyList []) ≫= py_iter;
  words ← mapM parse_word ws;
  segment_id ← py_getitem seg_data "segment_id";
  text ← py_getitem seg_data "text";
  start_time ← py_getitem seg_data "start_time";
  end_time ← py_getitem seg_data "end_time";
  mret (SegmentAlignment.mk _ _ segment_id text start_time end_time words).

Definition _parse_alignment (talk_id : TalkId) (language : Language)
    (data : pyobj) : result RawAlignment :=
  seg_datas ← py_get data "segments" (PyList []) ≫= py_iter;
  segments ← for_append seg_datas parse_segment [];
  mret (Alignment.mk _ _ talk_id language segments).

(* ===================================================================== *)
(** * More of the domain models and of the storage *)
(* ===================================================================== *)

(** ** [Language.from_code] and [TalkVersion] ([domain/models.py]) *)

(** [raise ValueError(message)] *)
Inductive value_error : Set :=
| ValueError (message : string).

(** The members of [Language], in the order [for lang in cls] visits
    them. *)
Definition Language_members : list Language :=
  [ENGLISH; MANDARIN_SIMPLIFIED; MANDARIN_TRADITIONAL; CZECH; SPANISH;
   RUSSIAN; PORTUGUESE; FRENCH; GERMAN; KOREAN; JAPANESE].

(** The loop of [from_code] over the members that are left. *)
Fixpoint from_code_scan (members : list Language) (code_lower : string)
    : option Language :=
  match members with
  | [] => None
  | lang :: members' =>
      if String.eqb (Language_value lang) code_lower then Some lang
      else from_code_scan members' code_lower
  end.

(** [Language.from_code(code)]; [lower] is the built-in [str.lower]. *)
Definition from_code (lower : string → string) (code : string)
    : value_error + Language :=
  let code_lower := lower code in
  match from_code_scan Language_members code_lower with
  | Some lang => inr lang
  | None => inl (ValueError ("Unknown language code: " ++ code))
  end.

(** [str.lower] on text made of ASCII characters: the letters [A] to [Z]
    become [a] to [z]. *)
Definition lower_ascii_char (c : Ascii.ascii) : Ascii.ascii :=
  let n := Ascii.nat_of_ascii c in
  if (65 <=? n)%nat && (n <=? 90)%nat then Ascii.ascii_of_nat (n + 32)
  else c.

Fixpoint lower_ascii (s : string) : string :=
  match s with
  | EmptyString => EmptyString
  | String c s' => String (lower_ascii_char c) (lower_ascii s')
  end.

(** [class TalkVersion] *)
Module TalkVersion.
Record t : Type := mk {
  talk_id : TalkId;
  language : Language;
  text_content : string;
  audio_path : string;
  text_path : string;
  alignment_path : option string;
}.

(** The property [has_alignment]. *)
Definition has_alignment (self : t) : bool :=
  match alignment_path self with
  | Some _ => true
  | None => false
  end.
End TalkVersion.

(** ** The dict [save_alignment] writes ([talk_storage.py])

    The values of the dict are the fields of the alignment as they are:
    [str_obj] and [num_obj] say which Python values the fields of type
    [Str] and [Num] are. *)
Section AlignmentData.
Context {Str Num : Type} (str_obj : Str → pyobj) (num_obj : Num → pyobj).

Definition word_data (w : WordAlignment.t Str Num) : pyobj :=
  PyDict {[ "word" := str_obj (WordAlignment.word w);
            "start_time" := num_obj (WordAlignment.start_time w);
            "end_time" := num_obj (WordAlignment.end_time w);
            "confidence" := num_obj (WordAlignment.confidence w) ]}.

Definition segment_data (seg : SegmentAlignment.t Str Num) : pyobj :=
  PyDict {[ "segment_id" := str_obj (SegmentAlignment.segment_id seg);
            "text" := str_obj (SegmentAlignment.text seg);
            "start_time" := num_obj (SegmentAlignment.start_time seg);
            "end_time" := num_obj (SegmentAlignment.end_time seg);
            "words" := PyList (word_data <$> SegmentAlignment.words seg) ]}.

(** [data] in [save_alignment]; [generated_at] is
    [datetime.utcnow().isoformat()]. *)
Definition alignment_data (generated_at : string)
    (alignment : Alignment.t Str Num) : pyobj :=
  PyDict {[ "talk_id" := PyStr (value (Alignment.talk_id alignment));
            "language" :=
              PyStr (Language_value (Alignment.language alignment));
            "version" := PyStr "1.0";
            "generated_at" := PyStr generated_at;
            "segments" :=
              PyList (segment_data <$> Alignment.segments alignment) ]}.

(** The alignment with its fields as Python values. *)
Definition word_objects (w : WordAlignment.t Str Num) : RawWord :=
  WordAlignment.mk _ _
    (str_obj (WordAlignment.word w))
    (num_obj (WordAlignment.start_time w))
    (num_obj (WordAlignment.end_time w))
    (num_obj (WordAlignment.confidence w)).

Definition segment_objects (seg : SegmentAlignment.t Str Num) : RawSegment :=
  SegmentAlignment.mk _ _
    (str_obj (SegmentAlignment.segment_id seg))
    (str_obj (SegmentAlignment.text seg))
    (num_obj (SegmentAlignment.start_time seg))
    (num_obj (SegmentAlignment.end_time seg))
    (word_objects <$> SegmentAlignment.words seg).

Definition alignment_objects (a : Alignment.t Str Num) : RawAlignment :=
  Alignment.mk _ _ (Alignment.talk_id a) (Alignment.language a)
    (segment_objects <$> Alignment.segments a).

End AlignmentData.

(** ** [class FileAlignmentRepository]

    The files are a map from paths to texts; [joinpath] is [pathlib]'s
    [/], [dumps] is [json.dumps(_, indent=2, ensure_ascii=False)] and
    [loads] is [json.loads], with [None] for a [JSONDecodeError]. Reading
    and writing a file succeed. *)
Section FileAlignmentRepository.
Context {path text : Type} `{EqDecision path}.
Context (joinpath : path → string → path).
Context (dumps : pyobj → text) (loads : text → option pyobj).
Context (_talks_dir : path).

Definition alignment_path (talk_id : TalkId) (language : Language) : path :=
  joinpath
    (joinpath (joinpath _talks_dir (value talk_id))
              (Language_value language))
    "alignment.json".

(** [get_alignment]: of the exceptions [_parse_alignment] raises, only
    [KeyError] is caught. *)
Definition get_alignment (files : path → option text) (talk_id : TalkId)
    (language : Language) : result (option RawAlignment) :=
  match files (alignment_path talk_id language) with
  | None => Ok None
  | Some content =>
      match loads content with
      | None => Ok None
      | Some data =>
          match _parse_alignment talk_id language data with
          | Ok alignment => Ok (Some alignment)
          | Raise (KeyError _) => Ok None
          | Raise e => Raise e
          end
      end
  end.

(** [save_alignment]: the files after the call. *)
Definition save_alignment {Str Num : Type}
    (str_obj : Str → pyobj) (num_obj : Num → pyobj)
    (generated_at : string) (files : path → option text)
    (alignment : Alignment.t Str Num) : path → option text :=
  let target :=
    alignment_path (Alignment.talk_id alignment)
                   (Alignment.language alignment) in
  let data := alignment_data str_obj num_obj generated_at alignment in
  λ p, if decide (p = target) then Some (dumps data) else files p.

Definition has_alignment (files : path → option text) (talk_id : TalkId)
    (language : Language) : bool :=
  bool_decide (is_Some (files (alignment_path talk_id language))).

End FileAlignmentRepository.

(** ** [class FileTalkRepository]

    What the repository finds on disk: a regular file with its text, or a
    directory with its entries in the order [iterdir] yields them. *)
Inductive node : Type :=
| File (content : string)
| Dir (entries : list (string * node)).

Inductive os_error : Set :=
| NotADirectoryError.

Definition is_file (n : node) : bool :=
  match n with File _ => true | Dir _ => false end.

Definition is_dir (n : node) : bool :=
  match n with File _ => false | Dir _ => true end.

(** [directory / name] for a plain name: the entry of that name, if there
    is one. *)
Definition child (directory : node) (name : string) : option node :=
  match directory with
  | File _ => None
  | Dir entries =>
      (λ found : nat * (string * node), found.2.2)
        <$> list_find (λ e, e.1 = name) entries
  end.

(** [name.startswith(".")]; the full stop is character 46. *)
Definition starts_with_dot (name : string) : bool :=
  match name with
  | String c _ => Ascii.eqb c (Ascii.ascii_of_nat 46)
  | EmptyString => false
  end.

Section FileTalkRepository.
(** [lower] is [str.lower], [suffix] is [pathlib]'s [suffix] of a name
    and [path_str] the string of the path of an entry of the language
    directory. *)
Context (lower suffix path_str : string → string).

(** The loop of [_find_file]. *)
Fixpoint find_file_scan (entries : list (string * node))
    (extension : string) : option (string * node) :=
  match entries with
  | [] => None
  | file :: entries' =>
      if String.eqb (lower (suffix file.1)) (lower extension)
         && is_file file.2
      then Some file
      else find_file_scan entries' extension
  end.

(** [_find_file(directory, extension)]; [directory] is what is found at
    the path, if anything. *)
Definition _find_file (directory : option node) (extension : string)
    : os_error + option (string * node) :=
  match directory with
  | None => inr None
  | Some (File _) => inl NotADirectoryError
  | Some (Dir entries) => inr (find_file_scan entries extension)
  end.

(** The loop of [get_available_languages]; a [ValueError] of [from_code]
    is caught, and [_find_file] is called on directories only. *)
Fixpoint available_scan (entries : list (string * node))
    (languages : list Language) : list Language :=
  match entries with
  | [] => languages
  | lang_dir :: entries' =>
      if is_dir lang_dir.2 && negb (starts_with_dot lang_dir.1) then
        match from_code lower lang_dir.1 with
        | inr lang =>
            match _find_file (Some lang_dir.2) ".txt",
                  _find_file (Some lang_dir.2) ".mp3" with
            | inr (Some _), inr (Some _) =>
                available_scan entries' (languages ++ [lang])
            | _, _ => available_scan entries' languages
            end
        | inl _ => available_scan entries' languages
        end
      else available_scan entries' languages
  end.

(** [get_available_languages]; [talk_dir] is what is found at
    [talks_dir / talk_id.value]. *)
Definition get_available_languages (talk_dir : option node)
    : os_error + list Language :=
  match talk_dir with
  | None => inr []
  | Some (File _) => inl NotADirectoryError
  | Some (Dir entries) => inr (available_scan entries [])
  end.

(** [get_version]; the language directory is the entry of [talk_dir]
    named [language.value]. *)
Definition get_version (talk_dir : option node) (talk_id : TalkId)
    (language : Language) : os_error + option TalkVersion.t :=
  match talk_dir ≫= (λ d, child d (Language_value language)) with
  | None => inr None
  | Some lang_dir =>
      match _find_file (Some lang_dir) ".txt" with
      | inl e => inl e
      | inr text_file =>
          match _find_file (Some lang_dir) ".mp3" with
          | inl e => inl e
          | inr audio_file =>
              match text_file, audio_file with
              | Some (text_name, text_node), Some (audio_name, _) =>
                  let text_content :=
                    match text_node with
                    | File content => content
                    | Dir _ => EmptyString (* not reached: [is_file] *)
                    end in
                  inr (Some (TalkVersion.mk talk_id language text_content
                               (path_str audio_name) (path_str text_name)
                               (if bool_decide
                                     (is_Some (child lang_dir
                                                 "alignment.json"))
                                then Some (path_str "alignment.json")
                                else None)))
              | _, _ => inr None
              end
          end
      end
  end.

End FileTalkRepository.

(* ===================================================================== *)
(** * The scenario of the specification *)
(* ===================================================================== *)

Module Scenario.

Definition f (x : PrimFloat.float) : float := PyFloat.lit x.

Definition hello : Word :=
  WordAlignment.mk _ _ "Hello" (f 0.0) (f 0.5) (f 0.99).
Definition world : Word :=
  WordAlignment.mk _ _ "world" (f 0.6) (f 1.2) (f 0.95).

Definition seg_000 (text : string) : Segment :=
  SegmentAlignment.mk _ _ "seg-000" text (f 0.0) (f 2.5) [hello; world].
Definition seg_001 (text : string) : Segment :=
  SegmentAlignment.mk _ _ "seg-001" text (f 2.5) (f 5.0) [].

Definition index (talk_id : TalkId) (language : Language)
    (text0 text1 : string) : Index :=
  Alignment.mk _ _ talk_id language [seg_000 text0; seg_001 text1].

(** One such index, and one whose two segments overlap. *)
Definition sample : Index :=
  index (mkTalkId "2025-10-58-oaks") ENGLISH "Hello world" "".

Definition wide : Segment :=
  SegmentAlignment.mk _ _ "seg-a" "" (f 0.0) (f 5.0) [].
Definition narrow : Segment :=
  SegmentAlignment.mk _ _ "seg-b" "" (f 1.0) (f 2.0) [].
Definition overlapping : Index :=
  Alignment.mk _ _ (mkTalkId "2025-10-58-oaks") ENGLISH [wide; narrow].

(** An index without segments, and one with a silence between its two
    segments. *)
Definition empty : Index :=
  Alignment.mk _ _ (mkTalkId "2025-10-58-oaks") ENGLISH [].

Definition early : Segment :=
  SegmentAlignment.mk _ _ "seg-000" "" (f 1.0) (f 2.0) [].
Definition late : Segment :=
  SegmentAlignment.mk _ _ "seg-001" "" (f 3.0) (f 4.0) [].
Definition gapped : Index :=
  Alignment.mk _ _ (mkTalkId "2025-10-58-oaks") ENGLISH [early; late].

(** A segment whose interval is empty, alone in an index. *)
Definition inverted : Segment :=
  SegmentAlignment.mk _ _ "seg-000" "" (f 3.0) (f 1.0) [].
Definition backwards : Index :=
  Alignment.mk _ _ (mkTalkId "2025-10-58-oaks") ENGLISH [inverted].

(** A document with one segment of two words, the second without a
    confidence. *)
Definition hello_entry : pyobj :=
  PyDict (<["word" := PyStr "Hello"]>
         (<["start_time" := PyFloat (f 0.0)]>
         (<["end_time" := PyFloat (f 0.5)]>
         {["confidence" := PyFloat (f 0.99)]}))).
Definition world_entry : pyobj :=
  PyDict (<["word" := PyStr "world"]>
         (<["start_time" := PyFloat (f 0.6)]>
         {["end_time" := PyFloat (f 1.2)]})).
Definition segment_entry : pyobj :=
  PyDict (<["segment_id" := PyStr "seg-000"]>
         (<["text" := PyStr "Hello world"]>
         (<["start_time" := PyFloat (f 0.0)]>
         (<["end_time" := PyFloat (f 2.5)]>
         {["words" := PyList [hello_entry; world_entry] ]})))).
Definition document : pyobj :=
  PyDict (<["talk_id" := PyStr "2025-10-58-oaks"]>
         (<["language" := PyStr "eng"]>
         {["segments" := PyList [segment_entry] ]})).

End Scenario.

(* ===================================================================== *)
(** * A disk for the repositories *)
(* ===================================================================== *)

Module Disk.

(** Paths as lists of names, and texts that are the documents themselves:
    [dumps] and [loads] are then inverse to each other. *)
Definition joinpath (p : list string) (name : string) : list string :=
  p ++ [name].
Definition dumps (data : pyobj) : pyobj := data.
Definition loads (content : pyobj) : option pyobj := Some content.
Definition talks_dir : list string := ["data"; "talks"].

Definition oaks : TalkId := mkTalkId "2025-10-58-oaks".

Definition no_files : list string → option pyobj := λ _, None.

(** The alignment file of the talk in English holds [content]. *)
Definition one_file (content : pyobj) : list string → option pyobj :=
  λ p, if decide (p = ["data"; "talks"; "2025-10-58-oaks"; "eng";
                       "alignment.json"])
       then Some content else None.

(** A document with the shape of the schema whose only segment has no
    field at all. *)
Definition hollow : pyobj :=
  PyDict {[ "segments" := PyList [PyDict ∅] ]}.

(** The suffix of the names used below: what follows the last full stop,
    with it. *)
Definition suffix (name : string) : string :=
  if String.eqb name "talk.TXT" then ".TXT"
  else if String.eqb name "talk.mp3" then ".mp3"
  else if String.eqb name "alignment.json" then ".json"
  else "".

Definition path_str (name : string) : string :=
  "data/talks/2025-10-58-oaks/eng/" ++ name.

(** The directory of a talk in English, with text, audio and alignment,
    beside a hidden directory and a stray file. *)
Definition eng_dir : node :=
  Dir [("alignment.json", File "{}"); ("talk.TXT", File "Hello world");
       ("talk.mp3", File "")].

Definition talk_dir : node :=
  Dir [(".git", Dir []); ("notes", File ""); ("eng", eng_dir)].

End Disk.

(* ===================================================================== *)
(** * The vocabulary of the specification *)
(* ===================================================================== *)

(** The closed interval [[lo, hi]] contains [x]. *)
Definition contains (lo hi x : float) : Prop :=
  PyFloat.le lo x = true ∧ PyFloat.le x hi = true.

Definition segment_contains (time : float) (s : Segment) : Prop :=
  contains (SegmentAlignment.start_time s) (SegmentAlignment.end_time s) time.

Definition word_contains (time : float) (w : Word) : Prop :=
  contains (WordAlignment.start_time w) (WordAlignment.end_time w) time.

#[global] Instance contains_dec lo hi x : Decision (contains lo hi x).
Proof. unfold contains. apply _. Defined.
#[global] Instance segment_contains_dec time s :
  Decision (segment_contains time s).
Proof. unfold segment_contains. apply _. Defined.
#[global] Instance word_contains_dec time w : Decision (word_contains time w).
Proof. unfold word_contains. apply _. Defined.

(** The three queries as the caller sees them: the value returned. *)
Definition segmentAt (a : Index) (time : float) : option Segment :=
  Method.result (find_segment_at_time time) a.
Definition wordAt (a : Index) (time : float) : option Word :=
  Method.result (find_word_at_time time) a.
Definition segmentIndexAt (a : Index) (time : float) : option nat :=
  Method.result (get_segment_index_at_time time) a.

(** [x] is the first element of [l] that satisfies [P], at position [i]. *)
Definition first_at {A} (P : A → Prop) (l : list A) (i : nat) (x : A) : Prop :=
  l !! i = Some x ∧ P x ∧ ∀ j y, l !! j = Some y → j < i → ¬ P y.

(** Segments as the specification expects them: every interval is
    non-empty and each segment ends no later than the next one starts. *)
Fixpoint well_formed (l : list Segment) : Prop :=
  match l with
  | [] => True
  | s :: l' =>
      PyFloat.le (SegmentAlignment.start_time s)
                 (SegmentAlignment.end_time s) = true
      ∧ match l' with
        | [] => True
        | s' :: _ =>
            PyFloat.le (SegmentAlignment.end_time s)
                       (SegmentAlignment.start_time s') = true
        end
      ∧ well_formed l'
  end.

(** ** The document the parser reads

    The segment entries of a document and the word entries of a segment
    entry, where the schema of the specification places them: the list
    under ["segments"], and the list under ["words"]. *)
Definition input_segments (data : pyobj) : list pyobj :=
  match data with
  | PyDict d =>
      match d !! "segments" with
      | Some (PyList l) => l
      | _ => []
      end
  | _ => []
  end.

Definition input_words (seg_data : pyobj) : list pyobj :=
  match seg_data with
  | PyDict d =>
      match d !! "words" with
      | Some (PyList l) => l
      | _ => []
      end
  | _ => []
  end.

(** The word [out] is built from the entry [w]: the three required fields
    are carried through, and the confidence is the entry's when it has
    one and [1.0] when it has none. *)
Definition word_parsed (w : pyobj) (out : RawWord) : Prop :=
  ∃ d, w = PyDict d
    ∧ d !! "word" = Some (WordAlignment.word out)
    ∧ d !! "start_time" = Some (WordAlignment.start_time out)
    ∧ d !! "end_time" = Some (WordAlignment.end_time out)
    ∧ (d !! "confidence" = None →
       WordAlignment.confidence out = PyFloat one)
    ∧ (∀ c, d !! "confidence" = Some c → WordAlignment.confidence out = c).

Definition is_str (o : pyobj) : Prop := ∃ s, o = PyStr s.

(** A document that follows the schema: every entry is an object with its
    required fields; ["confidence"], ["words"] and ["segments"] may be
    missing. *)
Definition conforming_word (w : pyobj) : Prop :=
  ∃ d, w = PyDict d
    ∧ is_Some (d !! "word")
    ∧ is_Some (d !! "start_time")
    ∧ is_Some (d !! "end_time").

Definition conforming_segment (seg_data : pyobj) : Prop :=
  ∃ d, seg_data = PyDict d
    ∧ is_Some (d !! "segment_id")
    ∧ is_Some (d !! "text")
    ∧ is_Some (d !! "start_time")
    ∧ is_Some (d !! "end_time")
    ∧ (d !! "words" = None
       ∨ ∃ ws, d !! "words" = Some (PyList ws) ∧ Forall conforming_word ws).

Definition conforming (data : pyobj) : Prop :=
  ∃ d, data = PyDict d
    ∧ (d !! "segments" = None
       ∨ ∃ l, d !! "segments" = Some (PyList l)
              ∧ Forall conforming_segment l).

(** A document with the shape of the schema, whether or not its entries
    have their required fields: every entry is an object, and ["words"]
    and ["segments"], when present, are lists. *)
Definition shaped_word (w : pyobj) : Prop := ∃ d, w = PyDict d.

Definition shaped_segment (seg_data : pyobj) : Prop :=
  ∃ d, seg_data = PyDict d
    ∧ (d !! "words" = None
       ∨ ∃ ws, d !! "words" = Some (PyList ws) ∧ Forall shaped_word ws).

Definition shaped (data : pyobj) : Prop :=
  ∃ d, data = PyDict d
    ∧ (d !! "segments" = None
       ∨ ∃ l, d !! "segments" = Some (PyList l)
              ∧ Forall shaped_segment l).

(** A computation that returns, or raises a [KeyError]. *)
Definition ok_or_key_error {A} (r : result A) : Prop :=
  (∃ a, r = Ok a) ∨ (∃ key, r = Raise (KeyError key)).

(** An entry of a directory is a regular file with the extension,
    compared without regard to case. *)
Definition has_extension (lower suffix : string → string)
    (extension : string) (file : string * node) : Prop :=
  lower (suffix file.1) = lower extension ∧ is_file file.2 = true.

#[global] Instance has_extension_dec lower suffix extension file :
  Decision (has_extension lower suffix extension file).
Proof. unfold has_extension. apply _. Defined.

(** A directory holds a regular file with the extension, compared without
    regard to case. *)
Definition holds_file (lower suffix : string → string) (directory : node)
    (extension : string) : Prop :=
  ∃ name content,
    match directory with
    | Dir entries => (name, File content) ∈ entries
    | File _ => False
    end
    ∧ lower (suffix name) = lower extension.

(** An entry of a talk directory stands for the language: it is a
    directory whose name does not start with a full stop and is a code of
    the language, and it holds a text file and an audio file. *)
Definition entry_lists (lower suffix : string → string)
    (entry : string * node) (lang : Language) : Prop :=
  is_dir entry.2 = true
  ∧ starts_with_dot entry.1 = false
  ∧ lower entry.1 = Language_value lang
  ∧ holds_file lower suffix entry.2 ".txt"
  ∧ holds_file lower suffix entry.2 ".mp3".

(* ===================================================================== *)
(** * Floats: the order of [<=] *)
(* ===================================================================== *)

Module PyFloatFacts.

Ltac by_cases :=
  change (Pos.compare_cont Eq) with Pos.compare in *;
  repeat match goal with
  | H : context [(?a ?= ?b)%Z] |- _ =>
      destruct (Z.compare_spec a b); simpl in H
  | |- context [(?a ?= ?b)%Z] =>
      destruct (Z.compare_spec a b); simpl
  | H : context [(?a ?= ?b)%positive] |- _ =>
      destruct (Pos.compare_spec a b); simpl in H
  | |- context [(?a ?= ?b)%positive] =>
      destruct (Pos.compare_spec a b); simpl
  end;
  try done; try lia.

Ltac by_shape :=
  unfold PyFloat.le, PyFloat.lt, SFleb, SFltb, SFcompare;
  repeat match goal with
  | x : float |- _ => destruct x as [[]|[]| |[] ? ?]
  end;
  simpl; try done; intros; by_cases.

Lemma le_trans (x y z : float) :
  PyFloat.le x y = true → PyFloat.le y z = true → PyFloat.le x z = true.
Proof. by_shape. Qed.

Lemma lt_le_trans (x y z : float) :
  PyFloat.lt x y = true → PyFloat.le y z = true → PyFloat.lt x z = true.
Proof. by_shape. Qed.

Lemma le_lt_trans (x y z : float) :
  PyFloat.le x y = true → PyFloat.lt y z = true → PyFloat.lt x z = true.
Proof. by_shape. Qed.

Lemma lt_not_ge (x y : float) :
  PyFloat.lt x y = true → PyFloat.le y x = false.
Proof. by_shape. Qed.

(** A float that takes part in a true comparison is not NaN, and then it
    is below itself. *)
Lemma le_refl_l (x y : float) :
  PyFloat.le x y = true → PyFloat.le x x = true.
Proof. by_shape. Qed.

Lemma le_refl_r (x y : float) :
  PyFloat.le x y = true → PyFloat.le y y = true.
Proof. by_shape. Qed.

Lemma le_nan_l (x : float) : PyFloat.le PyFloat.nan x = false.
Proof. done. Qed.

Lemma le_nan_r (x : float) : PyFloat.le x PyFloat.nan = false.
Proof. by destruct x. Qed.

Lemma between_spec (lo x hi : float) :
  PyFloat.between lo x hi = true ↔ contains lo hi x.
Proof. unfold PyFloat.between, contains. apply andb_true_iff. Qed.

Lemma between_false (lo x hi : float) :
  PyFloat.between lo x hi = false ↔ ¬ contains lo hi x.
Proof. rewrite <-between_spec. by destruct (PyFloat.between lo x hi). Qed.

End PyFloatFacts.

(* ===================================================================== *)
(** * What a call computes *)
(* ===================================================================== *)

(** A loop whose body and whose continuation leave [self] as it was
    leaves [self] as it was. *)
Lemma for_in_final {Self X R} (xs : list X)
    (body : X → Method.t Self (Method.flow R)) (after : Method.t Self R)
    (self : Self) :
  (∀ x s, Method.final (body x) s = s) →
  (∀ s, Method.final after s = s) →
  Method.final (Method.for_in xs body after) self = self.
Proof.
  intros Hbody Hafter. induction xs as [|x xs IH]; simpl; [apply Hafter|].
  unfold Method.final, Method.bind in *.
  specialize (Hbody x self). destruct (body x self) as [c s']. simpl in Hbody.
  subst s'. by destruct c.
Qed.

(** The scan over the segments returns the first segment that contains
    the time, found by [list_find]. *)
Lemma scan_segments (time : float) (l : list Segment) (self : Index) :
  Method.for_in l
    (λ segment,
       if PyFloat.between (SegmentAlignment.start_time segment) time
                          (SegmentAlignment.end_time segment)
       then mret (Method.Return (Some segment))
       else mret Method.Next)
    (mret None) self
  = (snd <$> list_find (segment_contains time) l, self).
Proof.
  induction l as [|s l IH]; [done|]. simpl. unfold Method.bind.
  destruct (PyFloat.between _ _ _) eqn:Hb; simpl.
  - apply PyFloatFacts.between_spec in Hb. by rewrite decide_True.
  - apply PyFloatFacts.between_false in Hb. rewrite decide_False by done.
    rewrite IH. by destruct (list_find _ l) as [[]|].
Qed.

Lemma scan_words (time : float) (l : list Word) (self : Index) :
  Method.for_in l
    (λ word,
       if PyFloat.between (WordAlignment.start_time word) time
                          (WordAlignment.end_time word)
       then mret (Method.Return (Some word))
       else mret Method.Next)
    (mret None) self
  = (snd <$> list_find (word_contains time) l, self).
Proof.
  induction l as [|w l IH]; [done|]. simpl. unfold Method.bind.
  destruct (PyFloat.between _ _ _) eqn:Hb; simpl.
  - apply PyFloatFacts.between_spec in Hb. by rewrite decide_True.
  - apply PyFloatFacts.between_false in Hb. rewrite decide_False by done.
    rewrite IH. by destruct (list_find _ l) as [[]|].
Qed.

(** The scan over [enumerate], started at position [k]. *)
Lemma scan_enumerate (time : float) (l : list Segment) (k : nat)
    (self : Index) :
  Method.for_in (imap (λ i x, (k + i, x)) l)
    (λ '(i, segment),
       if PyFloat.between (SegmentAlignment.start_time segment) time
                          (SegmentAlignment.end_time segment)
       then mret (Method.Return (Some i))
       else mret Method.Next)
    (mret None) self
  = ((λ p, k + p.1) <$> list_find (segment_contains time) l, self).
Proof.
  revert k. induction l as [|s l IH]; intros k; [done|].
  simpl. unfold Method.bind.
  destruct (PyFloat.between _ _ _) eqn:Hb; simpl.
  - apply PyFloatFacts.between_spec in Hb. rewrite decide_True by done.
    simpl. by rewrite Nat.add_0_r.
  - apply PyFloatFacts.between_false in Hb. rewrite decide_False by done.
    rewrite (imap_ext _ (λ i x, (S k + i, x))); [|intros; simpl; f_equal; lia].
    rewrite IH. destruct (list_find _ l) as [[i x]|]; simpl; [|done].
    do 2 f_equal. lia.
Qed.

Lemma find_segment_at_time_run (time : float) (self : Index) :
  find_segment_at_time time self
  = (snd <$> list_find (segment_contains time) (Alignment.segments self),
     self).
Proof. apply scan_segments. Qed.

Lemma get_segment_index_at_time_run (time : float) (self : Index) :
  get_segment_index_at_time time self
  = (fst <$> list_find (segment_contains time) (Alignment.segments self),
     self).
Proof.
  unfold get_segment_index_at_time, enumerate.
  change (imap (λ i x, (i, x))) with (imap (λ i (x : Segment), (0 + i, x))).
  etrans; [apply (scan_enumerate time _ 0)|].
  by destruct (list_find _ _) as [[]|].
Qed.

Lemma find_word_at_time_run (time : float) (self : Index) :
  find_word_at_time time self
  = (segment ← segmentAt self time;
     snd <$> list_find (word_contains time) (SegmentAlignment.words segment),
     self).
Proof.
  unfold find_word_at_time, segmentAt, Method.result.
  unfold mbind at 1, method_bind, Method.bind.
  rewrite find_segment_at_time_run. simpl.
  destruct (list_find _ _) as [[i s]|]; simpl; [|done].
  apply scan_words.
Qed.

Lemma segmentAt_find (a : Index) (time : float) :
  segmentAt a time
  = snd <$> list_find (segment_contains time) (Alignment.segments a).
Proof. unfold segmentAt, Method.result. by rewrite find_segment_at_time_run. Qed.

Lemma segmentIndexAt_find (a : Index) (time : float) :
  segmentIndexAt a time
  = fst <$> list_find (segment_contains time) (Alignment.segments a).
Proof.
  unfold segmentIndexAt, Method.result.
  by rewrite get_segment_index_at_time_run.
Qed.

Lemma wordAt_find (a : Index) (time : float) :
  wordAt a time
  = (segment ← segmentAt a time;
     snd <$> list_find (word_contains time) (SegmentAlignment.words segment)).
Proof. unfold wordAt, Method.result. by rewrite find_word_at_time_run. Qed.

(** [segmentAt] in the words of the specification. *)
Lemma segmentAt_Some (a : Index) (time : float) (s : Segment) :
  segmentAt a time = Some s
  ↔ ∃ i, first_at (segment_contains time) (Alignment.segments a) i s.
Proof.
  rewrite segmentAt_find, fmap_Some. unfold first_at. split.
  - intros [[i s'] [H ->]]. exists i. by apply list_find_Some in H.
  - intros [i H]. exists (i, s). split; [|done]. by apply list_find_Some.
Qed.

Lemma segmentAt_None (a : Index) (time : float) :
  segmentAt a time = None
  ↔ ∀ s, s ∈ Alignment.segments a → ¬ segment_contains time s.
Proof.
  rewrite segmentAt_find, fmap_None, list_find_None. apply Forall_forall.
Qed.

Lemma segmentIndexAt_Some (a : Index) (time : float) (i : nat) :
  segmentIndexAt a time = Some i
  ↔ ∃ s, first_at (segment_contains time) (Alignment.segments a) i s.
Proof.
  rewrite segmentIndexAt_find, fmap_Some. unfold first_at. split.
  - intros [[i' s] [H ->]]. exists s. by apply list_find_Some in H.
  - intros [s H]. exists (i, s). split; [|done]. by apply list_find_Some.
Qed.

Lemma segmentIndexAt_None (a : Index) (time : float) :
  segmentIndexAt a time = None
  ↔ ∀ s, s ∈ Alignment.segments a → ¬ segment_contains time s.
Proof.
  rewrite segmentIndexAt_find, fmap_None, list_find_None. apply Forall_forall.
Qed.

Lemma wordAt_Some (a : Index) (time : float) (w : Word) :
  wordAt a time = Some w
  ↔ ∃ s i, segmentAt a time = Some s
           ∧ first_at (word_contains time) (SegmentAlignment.words s) i w.
Proof.
  rewrite wordAt_find, bind_Some. unfold first_at. split.
  - intros (s & Hs & [[i w'] [H ->]]%fmap_Some). exists s, i.
    by apply list_find_Some in H.
  - intros (s & i & Hs & H). exists s. split; [done|].
    apply fmap_Some. exists (i, w). split; [|done]. by apply list_find_Some.
Qed.

Lemma wordAt_None (a : Index) (time : float) :
  wordAt a time = None
  ↔ segmentAt a time = None
    ∨ ∃ s, segmentAt a time = Some s
           ∧ ∀ w, w ∈ SegmentAlignment.words s → ¬ word_contains time w.
Proof.
  rewrite wordAt_find, bind_None. apply or_iff_compat_l.
  apply exist_proper; intros s. apply and_iff_compat_l.
  rewrite fmap_None, list_find_None. apply Forall_forall.
Qed.

(** A segment that contains the time, at position [k], makes the scan stop
    at [k] or before. *)
Lemma segmentAt_covered (a : Index) (time : float) (k : nat) (s : Segment) :
  Alignment.segments a !! k = Some s →
  segment_contains time s →
  ∃ i s1, i ≤ k
    ∧ first_at (segment_contains time) (Alignment.segments a) i s1
    ∧ segmentAt a time = Some s1.
Proof.
  intros Hk Hs.
  destruct (list_find_elem_of (segment_contains time)
              (Alignment.segments a) s) as [[i s1] Hfind];
    [by eapply list_elem_of_lookup_2|done|].
  pose proof Hfind as (Hi & Hc & Hmin)%list_find_Some.
  exists i, s1. split_and!; [|done|].
  - destruct (decide (i ≤ k)) as [|Hgt]; [done|].
    destruct (Hmin k s Hk); [lia|done].
  - by rewrite segmentAt_find, Hfind.
Qed.

Lemma segmentAt_first (a : Index) (time : float) (k : nat) (s : Segment) :
  first_at (segment_contains time) (Alignment.segments a) k s →
  segmentAt a time = Some s.
Proof. intros H. apply segmentAt_Some. by exists k. Qed.

(* ===================================================================== *)
(** * C1: the boundaries of a segment *)
(* ===================================================================== *)

(** C1, as stated, fails: in the scenario of the specification the second
    segment starts at 2.5, where the first one ends, and the query at 2.5
    returns the first segment, not the second. *)
Lemma boundary_returns_earlier_segment :
  ¬ (∀ (a : Index) (s : Segment),
       s ∈ Alignment.segments a →
       PyFloat.le (SegmentAlignment.start_time s)
                  (SegmentAlignment.end_time s) = true →
       segmentAt a (SegmentAlignment.start_time s) = Some s
       ∧ segmentAt a (SegmentAlignment.end_time s) = Some s).
Proof.
  intros H.
  destruct (H Scenario.sample (Scenario.seg_001 "")) as [Hstart _].
  - apply list_elem_of_In. right. by left.
  - by vm_compute.
  - vm_compute in Hstart. discriminate Hstart.
Qed.

(** C1 (amended): for a segment [s] of the index with
    [s.start_time <= s.end_time], the queries at [s.start_time] and at
    [s.end_time] each return a segment, the first one in sequence order
    whose closed interval contains the queried time; it stands at the
    position of [s] or before, and it is [s] itself whenever no segment
    before [s] contains the queried time. *)
Theorem segmentAt_boundaries (a : Index) (k : nat) (s : Segment) :
  Alignment.segments a !! k = Some s →
  PyFloat.le (SegmentAlignment.start_time s)
             (SegmentAlignment.end_time s) = true →
  let at_boundary (time : float) :=
    (∃ i s1, i ≤ k
       ∧ first_at (segment_contains time) (Alignment.segments a) i s1
       ∧ segmentAt a time = Some s1)
    ∧ ((∀ j y, Alignment.segments a !! j = Some y → j < k →
              ¬ segment_contains time y) →
       segmentAt a time = Some s) in
  at_boundary (SegmentAlignment.start_time s)
  ∧ at_boundary (SegmentAlignment.end_time s).
Proof.
  intros Hk Hle at_boundary.
  assert (∀ time, segment_contains time s → at_boundary time) as Hat.
  { intros time Hs. split; [by eapply segmentAt_covered|].
    intros Hmin. by apply (segmentAt_first a time k). }
  split; apply Hat; unfold segment_contains, contains;
    eauto using PyFloatFacts.le_refl_l, PyFloatFacts.le_refl_r.
Qed.

Lemma segmentAt_boundaries_witness :
  Alignment.segments Scenario.sample !! 0 = Some (Scenario.seg_000 "Hello world")
  ∧ segmentAt Scenario.sample (Scenario.f 0.0)
    = Some (Scenario.seg_000 "Hello world")
  ∧ segmentAt Scenario.sample (Scenario.f 2.5)
    = Some (Scenario.seg_000 "Hello world").
Proof.
  split; [reflexivity|].
  destruct (segmentAt_boundaries Scenario.sample 0
              (Scenario.seg_000 "Hello world") eq_refl eq_refl)
    as [[_ Hstart] [_ Hend]].
  split.
  - apply Hstart. intros j y _ Hj. lia.
  - apply Hend. intros j y _ Hj. lia.
Defined.

(* ===================================================================== *)
(** * C2: the first match wins *)
(* ===================================================================== *)

(** C2: when two segments [A] (earlier) and [B] (later) both contain
    [time], the query returns the earliest segment of the sequence that
    contains [time]: it stands at the position of [A] or before, hence
    before [B], and it is [A] when no segment before [A] contains
    [time]. *)
Theorem first_match_wins (a : Index) (time : float) (i j : nat)
    (A B : Segment) :
  Alignment.segments a !! i = Some A →
  Alignment.segments a !! j = Some B →
  i < j →
  segment_contains time A →
  segment_contains time B →
  (∃ k s, k ≤ i ∧ k < j
     ∧ first_at (segment_contains time) (Alignment.segments a) k s
     ∧ segmentAt a time = Some s)
  ∧ ((∀ j' y, Alignment.segments a !! j' = Some y → j' < i →
              ¬ segment_contains time y) →
     segmentAt a time = Some A).
Proof.
  intros HA HB Hij HcA HcB. split.
  - destruct (segmentAt_covered a time i A HA HcA) as (k & s & ? & ? & ?).
    exists k, s. split_and!; [done|lia|done|done].
  - intros Hmin. by apply (segmentAt_first a time i).
Qed.

Lemma first_match_wins_witness :
  segmentAt Scenario.overlapping (Scenario.f 1.5) = Some Scenario.wide.
Proof.
  refine (proj2 (first_match_wins Scenario.overlapping (Scenario.f 1.5) 0 1
                   Scenario.wide Scenario.narrow eq_refl eq_refl _ _ _) _).
  - lia.
  - split; reflexivity.
  - split; reflexivity.
  - intros j' y _ Hj. lia.
Defined.

(* ===================================================================== *)
(** * C3: the word at a time *)
(* ===================================================================== *)

(** C3: [find_word_at_time] returns not-found whenever
    [find_segment_at_time] does; otherwise, with [s] the matched segment,
    it returns the first word of [s.words] whose closed interval contains
    the time, and not-found exactly when no word of [s] contains it,
    although a segment was matched. *)
Theorem wordAt_in_matched_segment (a : Index) (time : float) :
  (segmentAt a time = None → wordAt a time = None)
  ∧ (∀ s, segmentAt a time = Some s →
       (∀ w, wordAt a time = Some w
             ↔ ∃ i, first_at (word_contains time)
                      (SegmentAlignment.words s) i w)
       ∧ (wordAt a time = None
          ↔ ∀ w, w ∈ SegmentAlignment.words s → ¬ word_contains time w)).
Proof.
  split.
  - intros Hnone. apply wordAt_None. by left.
  - intros s Hs. split.
    + intros w. rewrite wordAt_Some. split.
      * intros (s' & i & Hs' & Hw). exists i. congruence.
      * intros [i Hw]. by exists s, i.
    + rewrite wordAt_None. split.
      * intros [Hnone | (s' & Hs' & Hw)]; [congruence|].
        rewrite Hs in Hs'. by injection Hs' as <-.
      * intros Hw. right. by exists s.
Qed.

Lemma wordAt_in_matched_segment_witness :
  segmentAt Scenario.sample (Scenario.f 0.55)
  = Some (Scenario.seg_000 "Hello world")
  ∧ wordAt Scenario.sample (Scenario.f 0.55) = None
  ∧ wordAt Scenario.sample (Scenario.f 0.6) = Some Scenario.world.
Proof.
  split; [reflexivity|].
  destruct (proj2 (wordAt_in_matched_segment Scenario.sample
                     (Scenario.f 0.55))
              (Scenario.seg_000 "Hello world") eq_refl) as [_ Hnone].
  destruct (proj2 (wordAt_in_matched_segment Scenario.sample
                     (Scenario.f 0.6))
              (Scenario.seg_000 "Hello world") eq_refl) as [Hsome _].
  split.
  - apply Hnone. intros w Hw [H1 H2].
    apply list_elem_of_In in Hw. destruct Hw as [<- | [<- | []]].
    + vm_compute in H2. discriminate H2.
    + vm_compute in H1. discriminate H1.
  - apply Hsome. exists 1. split; [reflexivity|]. split.
    + split; reflexivity.
    + intros j y Hj Hlt [_ H2].
      destruct j as [|j]; [|lia]. injection Hj as <-.
      vm_compute in H2. discriminate H2.
Defined.

(* ===================================================================== *)
(** * C4: the index of the segment at a time *)
(* ===================================================================== *)

(** C4: [get_segment_index_at_time] returns not-found exactly when
    [find_segment_at_time] does; when it returns [i], [segments[i]] is the
    segment [find_segment_at_time] returns; and whenever
    [find_segment_at_time] returns a segment, an index is returned. *)
Theorem segmentIndexAt_agrees (a : Index) (time : float) :
  (segmentIndexAt a time = None ↔ segmentAt a time = None)
  ∧ (∀ i, segmentIndexAt a time = Some i →
       is_Some (segmentAt a time)
       ∧ Alignment.segments a !! i = segmentAt a time)
  ∧ (∀ s, segmentAt a time = Some s →
       ∃ i, segmentIndexAt a time = Some i
            ∧ Alignment.segments a !! i = Some s).
Proof.
  rewrite segmentIndexAt_find, segmentAt_find.
  destruct (list_find _ _) as [[i s]|] eqn:Hfind; simpl.
  - apply list_find_Some in Hfind as (Hi & _ & _). split_and!.
    + done.
    + intros i' [= <-]. by split; [eexists|].
    + intros s' [= <-]. by exists i.
  - split_and!; [done| |]; intros ? [=].
Qed.

Lemma segmentIndexAt_agrees_witness :
  segmentIndexAt Scenario.sample (Scenario.f 3.0) = Some 1
  ∧ Alignment.segments Scenario.sample !! 1
    = segmentAt Scenario.sample (Scenario.f 3.0).
Proof.
  split; [reflexivity|].
  apply (proj1 (proj2 (segmentIndexAt_agrees Scenario.sample
                         (Scenario.f 3.0)))).
  reflexivity.
Defined.

(* ===================================================================== *)
(** * C5: the queries never fail *)
(* ===================================================================== *)

(** C5: each of the three queries is a total function of the index and of
    the time, with no condition on either, whose result is an [option];
    the result is [None] exactly when nothing matches: no segment contains
    the time or, for the word query, the matched segment has no word that
    contains it. A NaN time matches nothing, and neither does any time on
    an index without segments. *)
Theorem queries_never_fail (a : Index) (time : float) :
  (segmentAt a time = None
   ↔ ∀ s, s ∈ Alignment.segments a → ¬ segment_contains time s)
  ∧ (segmentIndexAt a time = None
     ↔ ∀ s, s ∈ Alignment.segments a → ¬ segment_contains time s)
  ∧ (wordAt a time = None
     ↔ segmentAt a time = None
       ∨ ∃ s, segmentAt a time = Some s
              ∧ ∀ w, w ∈ SegmentAlignment.words s → ¬ word_contains time w)
  ∧ (segmentAt a PyFloat.nan = None
     ∧ segmentIndexAt a PyFloat.nan = None
     ∧ wordAt a PyFloat.nan = None)
  ∧ (Alignment.segments a = [] →
     segmentAt a time = None
     ∧ segmentIndexAt a time = None
     ∧ wordAt a time = None).
Proof.
  assert (∀ t, (∀ s, s ∈ Alignment.segments a → ¬ segment_contains t s) →
               segmentAt a t = None ∧ segmentIndexAt a t = None
               ∧ wordAt a t = None) as Hall.
  { intros t Ht. split; [by apply segmentAt_None|].
    split; [by apply segmentIndexAt_None|].
    apply wordAt_None. left. by apply segmentAt_None. }
  split; [apply segmentAt_None|].
  split; [apply segmentIndexAt_None|].
  split; [apply wordAt_None|].
  split.
  - apply Hall. intros s _ [_ H]. by rewrite PyFloatFacts.le_nan_l in H.
  - intros Hnil. apply Hall. rewrite Hnil. intros s Hs.
    by apply elem_of_nil in Hs.
Qed.

Lemma queries_never_fail_witness :
  Alignment.segments Scenario.empty = []
  ∧ segmentAt Scenario.empty (Scenario.f (-1.0)) = None
  ∧ segmentIndexAt Scenario.empty (Scenario.f (-1.0)) = None
  ∧ wordAt Scenario.empty (Scenario.f (-1.0)) = None.
Proof.
  split; [reflexivity|].
  apply (queries_never_fail Scenario.empty (Scenario.f (-1.0))).
  reflexivity.
Defined.

(* ===================================================================== *)
(** * C6: times that no segment contains *)
(* ===================================================================== *)

(** ** Well-formed sequences *)

Lemma well_formed_tail (s : Segment) (l : list Segment) :
  well_formed (s :: l) → well_formed l.
Proof. by intros (_ & _ & H). Qed.

Lemma well_formed_interval (l : list Segment) (i : nat) (s : Segment) :
  well_formed l → l !! i = Some s →
  PyFloat.le (SegmentAlignment.start_time s)
             (SegmentAlignment.end_time s) = true.
Proof.
  revert i. induction l as [|x l IH]; intros i Hwf Hi; [done|].
  destruct i as [|i]; simpl in Hi.
  - injection Hi as <-. by destruct Hwf.
  - eapply IH; [by eapply well_formed_tail|done].
Qed.

(** In a well-formed sequence the head ends before every later segment
    starts. *)
Lemma well_formed_head_before (s : Segment) (l : list Segment) (j : nat)
    (y : Segment) :
  well_formed (s :: l) → l !! j = Some y →
  PyFloat.le (SegmentAlignment.end_time s)
             (SegmentAlignment.start_time y) = true.
Proof.
  revert s j. induction l as [|x l IH]; intros s j Hwf Hj; [done|].
  destruct Hwf as (_ & Hsx & Hwf).
  destruct j as [|j]; simpl in Hj.
  - by injection Hj as <-.
  - eapply PyFloatFacts.le_trans; [exact Hsx|].
    eapply PyFloatFacts.le_trans; [by destruct Hwf|].
    by eapply IH.
Qed.

Lemma well_formed_ordered (l : list Segment) (i j : nat) (x y : Segment) :
  well_formed l → l !! i = Some x → l !! j = Some y → i < j →
  PyFloat.le (SegmentAlignment.end_time x)
             (SegmentAlignment.start_time y) = true.
Proof.
  revert i j. induction l as [|s l IH]; intros i j Hwf Hi Hj Hij; [done|].
  destruct j as [|j]; [lia|]. simpl in Hj.
  destruct i as [|i]; simpl in Hi.
  - injection Hi as <-. by eapply well_formed_head_before.
  - eapply (IH i j); [by eapply well_formed_tail|done|done|lia].
Qed.

(** A segment that ends before [time] does not contain it, and neither
    does one that starts after it. *)
Lemma ends_before (time : float) (s : Segment) :
  PyFloat.lt (SegmentAlignment.end_time s) time = true →
  ¬ segment_contains time s.
Proof.
  intros Hlt [_ Hle]. apply PyFloatFacts.lt_not_ge in Hlt. congruence.
Qed.

Lemma starts_after (time : float) (s : Segment) :
  PyFloat.lt time (SegmentAlignment.start_time s) = true →
  ¬ segment_contains time s.
Proof.
  intros Hlt [Hle _]. apply PyFloatFacts.lt_not_ge in Hlt. congruence.
Qed.

(** In a well-formed sequence, a time after the end of the segment at
    position [i] is in no segment up to [i], and a time before the start
    of the segment at position [i] is in no segment from [i] on. *)
Lemma none_up_to (l : list Segment) (time : float) (i : nat) (x : Segment) :
  well_formed l → l !! i = Some x →
  PyFloat.lt (SegmentAlignment.end_time x) time = true →
  ∀ j y, l !! j = Some y → j ≤ i → ¬ segment_contains time y.
Proof.
  intros Hwf Hi Hlt j y Hj Hji.
  destruct (decide (j = i)) as [-> | Hne].
  - rewrite Hi in Hj. injection Hj as <-. by apply ends_before.
  - apply ends_before.
    eapply PyFloatFacts.le_lt_trans; [|exact Hlt].
    eapply PyFloatFacts.le_trans;
      [|by eapply (well_formed_interval l i x)].
    eapply (well_formed_ordered l j i); [done..|lia].
Qed.

Lemma none_from (l : list Segment) (time : float) (i : nat) (x : Segment) :
  well_formed l → l !! i = Some x →
  PyFloat.lt time (SegmentAlignment.start_time x) = true →
  ∀ j y, l !! j = Some y → i ≤ j → ¬ segment_contains time y.
Proof.
  intros Hwf Hi Hlt j y Hj Hij.
  destruct (decide (j = i)) as [-> | Hne].
  - rewrite Hi in Hj. injection Hj as <-. by apply starts_after.
  - apply starts_after.
    eapply PyFloatFacts.lt_le_trans; [exact Hlt|].
    eapply PyFloatFacts.le_trans;
      [by eapply (well_formed_interval l i x)|].
    eapply (well_formed_ordered l i j); [done..|lia].
Qed.

(** C6: when no segment's closed interval contains [time],
    [find_segment_at_time] returns not-found. This is so for every time
    when there are no segments and, when the segments are well formed,
    for a time before the first segment starts, after the last one ends,
    or strictly between the end of a segment and the start of the
    next. *)
Theorem segmentAt_outside (a : Index) (time : float) :
  ((∀ s, s ∈ Alignment.segments a → ¬ segment_contains time s) →
   segmentAt a time = None)
  ∧ (Alignment.segments a = [] → segmentAt a time = None)
  ∧ (well_formed (Alignment.segments a) →
     (∀ first, head (Alignment.segments a) = Some first →
        PyFloat.lt time (SegmentAlignment.start_time first) = true →
        segmentAt a time = None)
     ∧ (∀ final, last (Alignment.segments a) = Some final →
          PyFloat.lt (SegmentAlignment.end_time final) time = true →
          segmentAt a time = None)
     ∧ (∀ i A B,
          Alignment.segments a !! i = Some A →
          Alignment.segments a !! S i = Some B →
          PyFloat.lt (SegmentAlignment.end_time A) time = true →
          PyFloat.lt time (SegmentAlignment.start_time B) = true →
          segmentAt a time = None)).
Proof.
  pose proof (proj2 (segmentAt_None a time)) as Hnone.
  split; [done|]. split.
  - intros Hnil. apply Hnone. rewrite Hnil. intros s Hs.
    by apply elem_of_nil in Hs.
  - intros Hwf. split; [|split].
    + intros first Hhead Hlt. apply Hnone.
      intros s [j Hj]%list_elem_of_lookup.
      rewrite head_lookup in Hhead.
      eapply (none_from _ time 0 first); [done..|lia].
    + intros final Hlast Hlt. apply Hnone.
      intros s [j Hj]%list_elem_of_lookup.
      rewrite last_lookup in Hlast.
      eapply (none_up_to _ time _ final); [done..|].
      apply lookup_lt_Some in Hj. lia.
    + intros i A B HA HB HltA HltB. apply Hnone.
      intros s [j Hj]%list_elem_of_lookup.
      destruct (decide (j ≤ i)).
      * by eapply (none_up_to _ time i A).
      * eapply (none_from _ time (S i) B); [done..|lia].
Qed.

Lemma segmentAt_outside_witness :
  well_formed (Alignment.segments Scenario.gapped)
  ∧ segmentAt Scenario.gapped (Scenario.f 0.5) = None
  ∧ segmentAt Scenario.gapped (Scenario.f 2.5) = None
  ∧ segmentAt Scenario.gapped (Scenario.f 4.5) = None
  ∧ segmentAt Scenario.empty (Scenario.f 0.5) = None
  ∧ segmentAt Scenario.sample (Scenario.f 6.0) = None.
Proof.
  assert (well_formed (Alignment.segments Scenario.gapped)) as Hwf.
  { simpl. repeat split; reflexivity. }
  split; [exact Hwf|].
  destruct (proj2 (proj2 (segmentAt_outside Scenario.gapped
                            (Scenario.f 0.5))) Hwf) as (Hbefore & _ & _).
  destruct (proj2 (proj2 (segmentAt_outside Scenario.gapped
                            (Scenario.f 2.5))) Hwf) as (_ & _ & Hgap).
  destruct (proj2 (proj2 (segmentAt_outside Scenario.gapped
                            (Scenario.f 4.5))) Hwf) as (_ & Hafter & _).
  split; [|split; [|split; [|split]]].
  - apply (Hbefore Scenario.early); reflexivity.
  - apply (Hgap 0 Scenario.early Scenario.late); reflexivity.
  - apply (Hafter Scenario.late); reflexivity.
  - apply (proj1 (proj2 (segmentAt_outside Scenario.empty
                           (Scenario.f 0.5)))).
    reflexivity.
  - apply (proj1 (segmentAt_outside Scenario.sample (Scenario.f 6.0))).
    intros s Hs [_ Hle]. apply list_elem_of_In in Hs.
    destruct Hs as [<- | [<- | []]]; vm_compute in Hle; discriminate Hle.
Defined.

(* ===================================================================== *)
(** * C7: the scenario *)
(* ===================================================================== *)

(** C7: on the index of the scenario, whatever its talk, its language and
    the texts of its two segments, the query for the segment at 2.5
    returns seg-000, the word at 0.55 is not found, the word at 0.0 is
    "Hello", the segment at 6.0 is not found, and the segment index at 3.0
    is 1. *)
Theorem scenario_queries (talk_id : TalkId) (language : Language)
    (text0 text1 : string) :
  let a := Scenario.index talk_id language text0 text1 in
  segmentAt a (Scenario.f 2.5) = Some (Scenario.seg_000 text0)
  ∧ SegmentAlignment.segment_id (Scenario.seg_000 text0) = "seg-000"
  ∧ wordAt a (Scenario.f 0.55) = None
  ∧ wordAt a (Scenario.f 0.0) = Some Scenario.hello
  ∧ WordAlignment.word Scenario.hello = "Hello"
  ∧ segmentAt a (Scenario.f 6.0) = None
  ∧ segmentIndexAt a (Scenario.f 3.0) = Some 1.
Proof. repeat split. Qed.

(* ===================================================================== *)
(** * C8: the queries leave the index as it was *)
(* ===================================================================== *)

(** C8: after each of the three queries the index is the one the query
    was called on: its talk, its language, its segments and their words
    are unchanged. *)
Theorem queries_leave_index_unchanged (a : Index) (time : float) :
  Method.final (find_segment_at_time time) a = a
  ∧ Method.final (find_word_at_time time) a = a
  ∧ Method.final (get_segment_index_at_time time) a = a.
Proof.
  assert (∀ s, Method.final (find_segment_at_time time) s = s) as Hseg.
  { intros s. unfold find_segment_at_time.
    apply (for_in_final (Self := Index)); [|done].
    intros x s'. by destruct (PyFloat.between _ _ _). }
  split; [apply Hseg|]. split.
  - unfold find_word_at_time, Method.final.
    unfold mbind at 1, method_bind, Method.bind.
    specialize (Hseg a). unfold Method.final in Hseg.
    destruct (find_segment_at_time time a) as [[segment|] a']; simpl in *;
      subst a'; [|done].
    apply (for_in_final (Self := Index)); [|done].
    intros x s'. by destruct (PyFloat.between _ _ _).
  - unfold get_segment_index_at_time.
    apply (for_in_final (Self := Index)); [|done].
    intros [i x] s'. by destruct (PyFloat.between _ _ _).
Qed.

(* ===================================================================== *)
(** * C9: the parser and the confidence of a word *)
(* ===================================================================== *)

Lemma result_bind_Ok {A B} (m : result A) (k : A → result B) (b : B) :
  m ≫= k = Ok b ↔ ∃ a, m = Ok a ∧ k a = Ok b.
Proof.
  destruct m as [a|e]; simpl.
  - split; [by exists a|]. by intros (a' & [= <-] & H).
  - split; [done|]. by intros (a' & [=] & _).
Qed.

(** A comprehension succeeds exactly when its element expression succeeds
    on every element, and yields the results in order. *)
Lemma mapM_Ok {A B} (f : A → result B) (xs : list A) (ys : list B) :
  mapM f xs = Ok ys ↔ Forall2 (λ x y, f x = Ok y) xs ys.
Proof.
  revert ys. induction xs as [|x xs IH]; intros ys; simpl.
  - split.
    + intros [= <-]. constructor.
    + by intros ->%Forall2_nil_inv_l.
  - rewrite result_bind_Ok. split.
    + intros (y & Hy & (ys' & Hys & [= <-])%result_bind_Ok).
      constructor; [done|]. by apply IH.
    + intros (y & ys' & Hy & Hys & ->)%Forall2_cons_inv_l.
      exists y. split; [done|]. apply result_bind_Ok.
      exists ys'. split; [by apply IH|done].
Qed.

(** So does a loop that appends. *)
Lemma for_append_Ok {X Y} (body : X → result Y) (xs : list X)
    (acc r : list Y) :
  for_append xs body acc = Ok r
  ↔ ∃ ys, r = acc ++ ys ∧ Forall2 (λ x y, body x = Ok y) xs ys.
Proof.
  revert acc. induction xs as [|x xs IH]; intros acc; simpl.
  - split.
    + intros [= <-]. exists []. split; [by rewrite app_nil_r|constructor].
    + intros (ys & -> & ->%Forall2_nil_inv_l). by rewrite app_nil_r.
  - rewrite result_bind_Ok. split.
    + intros (y & Hy & (ys & -> & Hys)%IH). exists (y :: ys).
      split; [by rewrite <-app_assoc|by constructor].
    + intros (ys & -> & (y & ys' & Hy & Hys & ->)%Forall2_cons_inv_l).
      exists y. split; [done|]. apply IH. exists ys'.
      split; [by rewrite <-app_assoc|done].
Qed.

(** ** One word entry *)

Lemma parse_word_Ok (w : pyobj) (out : RawWord) :
  parse_word w = Ok out → word_parsed w out.
Proof.
  unfold parse_word, word_parsed.
  destruct w as [| | | | |l|d]; try done. simpl.
  destruct (d !! "word") as [word|] eqn:Hword; [|done]. simpl.
  destruct (d !! "start_time") as [st|] eqn:Hst; [|done]. simpl.
  destruct (d !! "end_time") as [en|] eqn:Hen; [|done]. simpl.
  destruct (d !! "confidence") as [c|] eqn:Hc; simpl;
    intros [= <-]; exists d; simpl; rewrite Hc;
    split_and!; try done.
  by intros c' [= <-].
Qed.

Lemma parse_word_conforming (w : pyobj) :
  conforming_word w → ∃ out, parse_word w = Ok out.
Proof.
  intros (d & -> & [word Hword] & [st Hst] & [en Hen]).
  unfold parse_word. simpl. rewrite Hword, Hst, Hen. simpl.
  destruct (d !! "confidence"); simpl; by eexists.
Qed.

(** The keys of a dict and the characters of a string are strings. *)
Lemma py_chars_str (s : string) : Forall is_str (py_chars s).
Proof. induction s; constructor; [by eexists|done]. Qed.

Lemma keys_str (d : gmap string pyobj) :
  Forall is_str (PyStr <$> (map_to_list d).*1).
Proof. apply Forall_fmap, Forall_forall. intros k _. by exists k. Qed.

(** The parser accepts no string as an entry: a sequence of strings that
    is parsed entry by entry is empty. *)
Lemma no_str_entries {Y} (body : pyobj → result Y) (xs : list pyobj)
    (ys : list Y) :
  (∀ s y, body (PyStr s) ≠ Ok y) →
  Forall is_str xs →
  Forall2 (λ x y, body x = Ok y) xs ys →
  xs = [] ∧ ys = [].
Proof.
  intros Hstr Hxs Hall. destruct Hall as [|x y xs' ys' Hxy _]; [done|].
  apply Forall_cons in Hxs as [[s ->] _]. by destruct (Hstr s y).
Qed.

(** What is iterated over is the list of entries of the schema, as soon
    as every element is parsed. *)
Lemma iterated_entries {Y} (body : pyobj → result Y) (o : pyobj)
    (xs : list pyobj) (ys : list Y) :
  (∀ s y, body (PyStr s) ≠ Ok y) →
  py_iter o = Ok xs →
  Forall2 (λ x y, body x = Ok y) xs ys →
  Forall2 (λ x y, body x = Ok y)
    (match o with PyList l => l | _ => [] end) ys.
Proof.
  intros Hstr Hiter Hall.
  destruct o as [| | | |s|l|d]; simpl in Hiter; try done;
    injection Hiter as <-; [|done|].
  - by destruct (no_str_entries body _ ys Hstr (py_chars_str s) Hall)
      as [_ ->].
  - by destruct (no_str_entries body _ ys Hstr (keys_str d) Hall)
      as [_ ->].
Qed.

Lemma parse_word_str (s : string) (out : RawWord) :
  parse_word (PyStr s) ≠ Ok out.
Proof. done. Qed.

(** ** One segment entry *)

Lemma parse_segment_str (s : string) (out : RawSegment) :
  parse_segment (PyStr s) ≠ Ok out.
Proof. done. Qed.

Lemma parse_segment_Ok (seg_data : pyobj) (seg : RawSegment) :
  parse_segment seg_data = Ok seg →
  Forall2 word_parsed (input_words seg_data) (SegmentAlignment.words seg).
Proof.
  unfold parse_segment.
  intros (ws & (v & Hget & Hiter)%result_bind_Ok
             & (words & Hwords%mapM_Ok
                & (segment_id & _ & (text & _ & (st & _ & (en & _ & Hseg)
                   %result_bind_Ok)%result_bind_Ok)%result_bind_Ok)
                %result_bind_Ok)%result_bind_Ok)%result_bind_Ok.
  injection Hseg as <-. simpl.
  pose proof (iterated_entries parse_word v ws words parse_word_str
                Hiter Hwords) as Hentries.
  assert (input_words seg_data = match v with PyList l => l | _ => [] end)
    as ->.
  { destruct seg_data as [| | | | |l|d]; try done. simpl in *.
    destruct (d !! "words") as [v'|]; by injection Hget as <-. }
  eapply Forall2_impl; [exact Hentries|]. apply parse_word_Ok.
Qed.

Lemma parse_segment_conforming (seg_data : pyobj) :
  conforming_segment seg_data → ∃ seg, parse_segment seg_data = Ok seg.
Proof.
  intros (d & -> & [segment_id Hid] & [text Htext] & [st Hst] & [en Hen]
          & Hwords).
  assert (∃ ws, py_get (PyDict d) "words" (PyList []) ≫= py_iter = Ok ws
                ∧ Forall conforming_word ws) as (ws & Hws & Hconf).
  { simpl. destruct Hwords as [-> | (ws & -> & Hconf)]; simpl.
    - by exists [].
    - by exists ws. }
  assert (∃ words, mapM parse_word ws = Ok words) as [words Hmap].
  { clear Hws. induction Hconf as [|w ws Hw _ [words IH]].
    - by exists [].
    - destruct (parse_word_conforming w Hw) as [out Hout].
      exists (out :: words). simpl. by rewrite Hout, IH. }
  unfold parse_segment. rewrite Hws. simpl. rewrite Hmap. simpl.
  rewrite Hid, Htext, Hst, Hen. simpl. by eexists.
Qed.

(** ** The whole document *)

Lemma parse_alignment_Ok (talk_id : TalkId) (language : Language)
    (data : pyobj) (a : RawAlignment) :
  _parse_alignment talk_id language data = Ok a →
  Alignment.talk_id a = talk_id
  ∧ Alignment.language a = language
  ∧ Forall2 (λ seg_data seg, parse_segment seg_data = Ok seg)
      (input_segments data) (Alignment.segments a).
Proof.
  unfold _parse_alignment.
  intros (seg_datas & (v & Hget & Hiter)%result_bind_Ok
          & (segments & (ys & -> & Hall)%for_append_Ok & Ha)
            %result_bind_Ok)%result_bind_Ok.
  injection Ha as <-. simpl. split; [done|]. split; [done|].
  pose proof (iterated_entries parse_segment v seg_datas ys
                parse_segment_str Hiter Hall) as Hentries.
  assert (input_segments data = match v with PyList l => l | _ => [] end)
    as ->; [|done].
  destruct data as [| | | | |l|d]; try done. simpl in *.
  destruct (d !! "segments") as [v'|]; by injection Hget as <-.
Qed.

Lemma parse_alignment_conforming (talk_id : TalkId) (language : Language)
    (data : pyobj) :
  conforming data → ∃ a, _parse_alignment talk_id language data = Ok a.
Proof.
  intros (d & -> & Hsegments).
  assert (∃ l, py_get (PyDict d) "segments" (PyList []) ≫= py_iter = Ok l
               ∧ Forall conforming_segment l) as (l & Hl & Hconf).
  { simpl. destruct Hsegments as [-> | (l & -> & Hconf)]; simpl.
    - by exists [].
    - by exists l. }
  assert (∀ acc, ∃ segments,
            for_append l parse_segment acc = Ok segments) as Hloop.
  { clear Hl. induction Hconf as [|x l Hx _ IH]; intros acc.
    - by exists acc.
    - destruct (parse_segment_conforming x Hx) as [seg Hseg].
      destruct (IH (acc ++ [seg])) as [segments Hsegs].
      exists segments. simpl. by rewrite Hseg. }
  destruct (Hloop []) as [segments Hsegs].
  unfold _parse_alignment. rewrite Hl. simpl. rewrite Hsegs. simpl.
  by eexists.
Qed.

(** C9: a document that follows the schema is parsed, and whenever a
    document is parsed into an alignment, the segments of the alignment
    stand for the segment entries of the document, one for one and in
    order, and the words of each segment for the word entries of its
    entry, one for one and in order: each word has the ["word"],
    ["start_time"] and ["end_time"] of its entry as they are, with the
    entry's ["confidence"] as it is when the entry has one, and with
    confidence [1.0] when it has none. *)
Theorem parse_alignment_words (talk_id : TalkId) (language : Language)
    (data : pyobj) :
  (conforming data →
   ∃ a, _parse_alignment talk_id language data = Ok a)
  ∧ (∀ a, _parse_alignment talk_id language data = Ok a →
       Forall2
         (λ seg_data seg,
            Forall2 word_parsed (input_words seg_data)
                    (SegmentAlignment.words seg))
         (input_segments data) (Alignment.segments a)).
Proof.
  split; [apply parse_alignment_conforming|].
  intros a (_ & _ & Hall)%parse_alignment_Ok.
  eapply Forall2_impl; [exact Hall|]. apply parse_segment_Ok.
Qed.

Lemma document_conforming : conforming Scenario.document.
Proof.
  eexists. split; [reflexivity|]. right.
  exists [Scenario.segment_entry]. split; [by vm_compute|].
  repeat constructor.
  eexists. split; [reflexivity|].
  split_and!; try (by vm_compute; eexists).
  right. exists [Scenario.hello_entry; Scenario.world_entry].
  split; [by vm_compute|].
  repeat constructor;
    (eexists; split; [reflexivity|]; split_and!; by vm_compute; eexists).
Defined.

Lemma parse_alignment_words_witness :
  ∃ a, _parse_alignment (mkTalkId "2025-10-58-oaks") ENGLISH
         Scenario.document = Ok a
    ∧ Forall2
        (λ seg_data seg,
           Forall2 word_parsed (input_words seg_data)
                   (SegmentAlignment.words seg))
        (input_segments Scenario.document) (Alignment.segments a).
Proof.
  destruct (proj1 (parse_alignment_words (mkTalkId "2025-10-58-oaks")
                     ENGLISH Scenario.document) document_conforming)
    as [a Ha].
  exists a. split; [exact Ha|].
  exact (proj2 (parse_alignment_words (mkTalkId "2025-10-58-oaks")
                  ENGLISH Scenario.document) a Ha).
Defined.

(** The document of the scenario is parsed into the first segment of the
    scenario's index, field for field; "world" has no confidence in the
    document and gets [1.0]. *)
Example parse_document :
  _parse_alignment (mkTalkId "2025-10-58-oaks") ENGLISH Scenario.document
  = Ok (Alignment.mk _ _ (mkTalkId "2025-10-58-oaks") ENGLISH
          [SegmentAlignment.mk _ _ (PyStr "seg-000") (PyStr "Hello world")
             (PyFloat (Scenario.f 0.0)) (PyFloat (Scenario.f 2.5))
             [WordAlignment.mk _ _ (PyStr "Hello")
                (PyFloat (Scenario.f 0.0)) (PyFloat (Scenario.f 0.5))
                (PyFloat (Scenario.f 0.99));
              WordAlignment.mk _ _ (PyStr "world")
                (PyFloat (Scenario.f 0.6)) (PyFloat (Scenario.f 1.2))
                (PyFloat one)]]).
Proof. by vm_compute. Qed.

(** A word entry without its ["word"] makes the parser raise [KeyError],
    and a string where the list of segments should be makes it raise
    [AttributeError]. *)
Example parse_word_missing_key :
  parse_word (PyDict {["start_time" := PyFloat one]})
  = Raise (KeyError "word").
Proof. by vm_compute. Qed.

Example parse_segments_not_a_list :
  _parse_alignment (mkTalkId "2025-10-58-oaks") ENGLISH
    (PyDict {["segments" := PyStr "none"]})
  = Raise AttributeError.
Proof. by vm_compute. Qed.

(* ===================================================================== *)
(** * C10: what is returned contains the time *)
(* ===================================================================== *)

(** C10: a segment returned by [find_segment_at_time], the segment at the
    index returned by [get_segment_index_at_time], and a word returned by
    [find_word_at_time] all satisfy [start_time <= time <= end_time]; so a
    segment or a word whose [start_time] is greater than its [end_time] is
    never returned, for any time. *)
Theorem results_contain_time (a : Index) (time : float) :
  (∀ s, segmentAt a time = Some s →
     PyFloat.le (SegmentAlignment.start_time s) time = true
     ∧ PyFloat.le time (SegmentAlignment.end_time s) = true)
  ∧ (∀ i, segmentIndexAt a time = Some i →
       ∃ s, Alignment.segments a !! i = Some s
            ∧ PyFloat.le (SegmentAlignment.start_time s) time = true
            ∧ PyFloat.le time (SegmentAlignment.end_time s) = true)
  ∧ (∀ w, wordAt a time = Some w →
       PyFloat.le (WordAlignment.start_time w) time = true
       ∧ PyFloat.le time (WordAlignment.end_time w) = true)
  ∧ (∀ s, PyFloat.lt (SegmentAlignment.end_time s)
                     (SegmentAlignment.start_time s) = true →
       segmentAt a time ≠ Some s
       ∧ ∀ i, segmentIndexAt a time = Some i →
              Alignment.segments a !! i ≠ Some s)
  ∧ (∀ w, PyFloat.lt (WordAlignment.end_time w)
                     (WordAlignment.start_time w) = true →
       wordAt a time ≠ Some w).
Proof.
  assert (∀ lo hi, PyFloat.lt hi lo = true → ¬ contains lo hi time)
    as Hinverted.
  { intros lo hi Hlt [H1 H2]. apply PyFloatFacts.lt_not_ge in Hlt.
    pose proof (PyFloatFacts.le_trans _ _ _ H1 H2). congruence. }
  assert (∀ s, segmentAt a time = Some s → segment_contains time s)
    as Hseg.
  { intros s [i (_ & Hs & _)]%segmentAt_Some. exact Hs. }
  assert (∀ i, segmentIndexAt a time = Some i →
               ∃ s, Alignment.segments a !! i = Some s
                    ∧ segment_contains time s) as Hidx.
  { intros i [s (Hi & Hs & _)]%segmentIndexAt_Some. by exists s. }
  assert (∀ w, wordAt a time = Some w → word_contains time w) as Hword.
  { intros w (s & i & _ & _ & Hw & _)%wordAt_Some. exact Hw. }
  split; [exact Hseg|]. split; [exact Hidx|]. split; [exact Hword|].
  split.
  - intros s Hlt. split.
    + intros Hs. by apply (Hinverted _ _ Hlt), Hseg.
    + intros i (s' & Hi & Hs')%Hidx Heq. rewrite Hi in Heq.
      injection Heq as ->. by apply (Hinverted _ _ Hlt).
  - intros w Hlt Hw. by apply (Hinverted _ _ Hlt), Hword.
Qed.

Lemma results_contain_time_witness :
  PyFloat.lt (SegmentAlignment.end_time Scenario.inverted)
             (SegmentAlignment.start_time Scenario.inverted) = true
  ∧ segmentAt Scenario.backwards (Scenario.f 2.0) ≠ Some Scenario.inverted
  ∧ PyFloat.le (SegmentAlignment.start_time (Scenario.seg_001 ""))
               (Scenario.f 3.0) = true
  ∧ PyFloat.le (Scenario.f 3.0)
               (SegmentAlignment.end_time (Scenario.seg_001 "")) = true.
Proof.
  split; [reflexivity|]. split.
  - apply (proj1 (proj2 (proj2 (proj2 (results_contain_time
                                         Scenario.backwards
                                         (Scenario.f 2.0)))))).
    reflexivity.
  - apply (proj1 (results_contain_time Scenario.sample (Scenario.f 3.0))).
    reflexivity.
Defined.

(* ===================================================================== *)
(** * Beyond the claims: [Language.from_code] *)
(* ===================================================================== *)

Lemma Language_value_inj (l1 l2 : Language) :
  Language_value l1 = Language_value l2 → l1 = l2.
Proof. by destruct l1, l2. Qed.

Lemma Language_members_all (lang : Language) : lang ∈ Language_members.
Proof.
  apply list_elem_of_In. unfold Language_members.
  destruct lang; simpl; tauto.
Qed.

(** The scan returns a member whose value is the code, and it finds every
    member that stands in the list. *)
Lemma from_code_scan_Some (members : list Language) (c : string)
    (lang : Language) :
  from_code_scan members c = Some lang
  ↔ lang ∈ members ∧ Language_value lang = c.
Proof.
  induction members as [|m members IH]; simpl.
  - split; [done|]. by intros [?%elem_of_nil _].
  - destruct (String.eqb_spec (Language_value m) c) as [Heq | Hne].
    + split.
      * intros [= <-]. split; [by left|done].
      * intros [_ Hlang]. f_equal. apply Language_value_inj. congruence.
    + rewrite IH, elem_of_cons. split; [intros [Hin Hl]; by split; [right|]|].
      intros [[-> | Hin] Hlang]; [done|by split].
Qed.

(** The scan over all the members finds the language of a value: the
    values are pairwise distinct. *)
Lemma from_code_inr (lower : string → string) (code : string)
    (lang : Language) :
  from_code lower code = inr lang ↔ lower code = Language_value lang.
Proof.
  unfold from_code.
  destruct (from_code_scan Language_members (lower code)) as [l|] eqn:Hscan.
  - apply from_code_scan_Some in Hscan as [_ Hl]. split.
    + by intros [= <-].
    + intros Hlang. f_equal. apply Language_value_inj. congruence.
  - split; [done|]. intros Hlang.
    assert (from_code_scan Language_members (lower code) = Some lang)
      as Hsome; [|congruence].
    apply from_code_scan_Some. split; [apply Language_members_all|done].
Qed.

(** X1: [Language.from_code(code)] returns [lang] exactly when the
    lower-cased code is the value of [lang], whatever [str.lower] does. *)
Theorem from_code_returns (lower : string → string) (code : string)
    (lang : Language) :
  from_code lower code = inr lang ↔ lower code = Language_value lang.
Proof.
  split.
  - intros Hcode. by apply from_code_inr.
  - intros Hlower. by apply from_code_inr.
Qed.

(** X2: [Language.from_code(code)] raises exactly when the lower-cased
    code is the value of no language, and then the [ValueError] names the
    code as it was given, not lower-cased. *)
Theorem from_code_raises (lower : string → string) (code : string)
    (e : value_error) :
  from_code lower code = inl e
  ↔ (∀ lang, lower code ≠ Language_value lang)
    ∧ e = ValueError ("Unknown language code: " ++ code).
Proof.
  split.
  - intros Hraise. split.
    + intros lang Hlang%from_code_inr. congruence.
    + unfold from_code in Hraise.
      destruct (from_code_scan _ _); by inversion Hraise.
  - intros [Hnone ->]. unfold from_code.
    destruct (from_code_scan _ _) as [l|] eqn:Hscan; [|done].
    apply from_code_scan_Some in Hscan as [_ Hl]. by destruct (Hnone l).
Qed.

(** X3: when [str.lower] leaves the value of a language as it is,
    [from_code] maps the value back to the language, and it maps to the
    same language every code with the same lower-cased form. *)
Theorem from_code_value (lower : string → string) (lang : Language) :
  lower (Language_value lang) = Language_value lang →
  from_code lower (Language_value lang) = inr lang
  ∧ ∀ code, lower code = lower (Language_value lang) →
            from_code lower code = inr lang.
Proof.
  intros Hfix. split.
  - by apply from_code_inr.
  - intros code Hcode. apply from_code_inr. congruence.
Qed.

Lemma from_code_value_witness :
  from_code lower_ascii "kor" = inr KOREAN
  ∧ from_code lower_ascii "KoR" = inr KOREAN.
Proof.
  destruct (from_code_value lower_ascii KOREAN eq_refl) as [Hvalue Hcodes].
  split; [exact Hvalue|]. apply Hcodes. reflexivity.
Defined.

Lemma from_code_returns_witness :
  lower_ascii "ZHS" = Language_value MANDARIN_SIMPLIFIED
  ∧ from_code lower_ascii "ZHS" = inr MANDARIN_SIMPLIFIED.
Proof.
  split; [reflexivity|].
  apply (proj2 (from_code_returns lower_ascii "ZHS" MANDARIN_SIMPLIFIED)).
  reflexivity.
Defined.

Lemma from_code_raises_witness :
  from_code lower_ascii "Eng."
  = inl (ValueError "Unknown language code: Eng.").
Proof.
  apply (proj2 (from_code_raises lower_ascii "Eng." _)).
  split; [|reflexivity]. intros lang Hlang. by destruct lang.
Defined.

(* ===================================================================== *)
(** * Beyond the claims: what is saved is parsed back *)
(* ===================================================================== *)

Section SavedData.
Context {Str Num : Type} (str_obj : Str → pyobj) (num_obj : Num → pyobj).

Lemma parse_word_data (w : WordAlignment.t Str Num) :
  parse_word (word_data str_obj num_obj w)
  = Ok (word_objects str_obj num_obj w).
Proof. reflexivity. Qed.

Lemma parse_words_data (ws : list (WordAlignment.t Str Num)) :
  mapM parse_word (word_data str_obj num_obj <$> ws)
  = Ok (word_objects str_obj num_obj <$> ws).
Proof.
  induction ws as [|w ws IH]; [done|].
  rewrite !fmap_cons.
  change (mapM parse_word (word_data str_obj num_obj w
                           :: (word_data str_obj num_obj <$> ws)))
    with (y ← parse_word (word_data str_obj num_obj w);
          k ← mapM parse_word (word_data str_obj num_obj <$> ws);
          mret (y :: k)).
  by rewrite parse_word_data, IH.
Qed.

Lemma parse_segment_data (seg : SegmentAlignment.t Str Num) :
  parse_segment (segment_data str_obj num_obj seg)
  = Ok (segment_objects str_obj num_obj seg).
Proof.
  unfold parse_segment.
  change (py_get (segment_data str_obj num_obj seg) "words" (PyList [])
          ≫= py_iter)
    with (Ok (word_data str_obj num_obj <$> SegmentAlignment.words seg)
          : result (list pyobj)).
  simpl. by rewrite parse_words_data.
Qed.

Lemma parse_segments_data (segs : list (SegmentAlignment.t Str Num))
    (acc : list RawSegment) :
  for_append (segment_data str_obj num_obj <$> segs) parse_segment acc
  = Ok (acc ++ (segment_objects str_obj num_obj <$> segs)).
Proof.
  revert acc. induction segs as [|seg segs IH]; intros acc; simpl.
  - by rewrite app_nil_r.
  - rewrite parse_segment_data. simpl. rewrite IH. by rewrite <-app_assoc.
Qed.

Lemma parse_alignment_data (generated_at : string)
    (a : Alignment.t Str Num) (talk_id : TalkId) (language : Language) :
  _parse_alignment talk_id language
    (alignment_data str_obj num_obj generated_at a)
  = Ok (Alignment.mk _ _ talk_id language
          (segment_objects str_obj num_obj <$> Alignment.segments a)).
Proof.
  unfold _parse_alignment.
  change (py_get (alignment_data str_obj num_obj generated_at a)
            "segments" (PyList []) ≫= py_iter)
    with (Ok (segment_data str_obj num_obj <$> Alignment.segments a)
          : result (list pyobj)).
  simpl. by rewrite parse_segments_data.
Qed.

(** X4: the parser reads the dict [save_alignment] builds without raising
    and returns the segments and the words that were saved, field for
    field and in order, whatever the time of generation; the talk and the
    language of the result are those the parser is called with, not
    those written in the dict. *)
Theorem parse_saved_data (generated_at : string)
    (a : Alignment.t Str Num) (talk_id : TalkId) (language : Language) :
  _parse_alignment talk_id language
    (alignment_data str_obj num_obj generated_at a)
  = Ok (Alignment.mk _ _ talk_id language
          (segment_objects str_obj num_obj <$> Alignment.segments a)).
Proof. apply parse_alignment_data. Qed.

End SavedData.

Lemma fmap_fixed {A} (f : A → A) (l : list A) :
  (∀ x, f x = x) → f <$> l = l.
Proof.
  intros Hf. induction l as [|x l IH]; [done|].
  by rewrite fmap_cons, Hf, IH.
Qed.

Lemma word_objects_id (w : RawWord) : word_objects id id w = w.
Proof. by destruct w. Qed.

Lemma segment_objects_id (seg : RawSegment) :
  segment_objects id id seg = seg.
Proof.
  destruct seg as [segment_id text st en words].
  unfold segment_objects. simpl SegmentAlignment.words.
  by rewrite (fmap_fixed _ words word_objects_id).
Qed.

(** X5: an alignment as the parser builds it, whatever values its fields
    hold, is the alignment the parser returns for the dict that
    [save_alignment] builds from it. *)
Theorem parse_saved_alignment (generated_at : string) (a : RawAlignment) :
  _parse_alignment (Alignment.talk_id a) (Alignment.language a)
    (alignment_data id id generated_at a)
  = Ok a.
Proof.
  rewrite parse_alignment_data. f_equal.
  by rewrite (fmap_fixed _ _ segment_objects_id); destruct a.
Qed.

(* ===================================================================== *)
(** * Beyond the claims: documents with the shape of the schema *)
(* ===================================================================== *)

(** On a document with the shape of the schema the parser can only fail
    for a missing key. *)
Lemma parse_word_shaped (w : pyobj) :
  shaped_word w → ok_or_key_error (parse_word w).
Proof.
  intros [d ->]. unfold ok_or_key_error, parse_word. simpl.
  destruct (d !! "word"); simpl; [|by right; eexists].
  destruct (d !! "start_time"); simpl; [|by right; eexists].
  destruct (d !! "end_time"); simpl; [|by right; eexists].
  destruct (d !! "confidence"); simpl; by left; eexists.
Qed.

Lemma parse_words_shaped (ws : list pyobj) :
  Forall shaped_word ws → ok_or_key_error (mapM parse_word ws).
Proof.
  induction 1 as [|w ws Hw _ IH]; [by left; eexists|].
  change (mapM parse_word (w :: ws))
    with (y ← parse_word w; k ← mapM parse_word ws; mret (y :: k)).
  destruct (parse_word_shaped w Hw) as [[out ->] | [key ->]];
    [|by right; exists key].
  destruct IH as [[outs ->] | [key ->]];
    [by left; eexists | by right; exists key].
Qed.

Lemma parse_segment_shaped (seg_data : pyobj) :
  shaped_segment seg_data → ok_or_key_error (parse_segment seg_data).
Proof.
  intros (d & -> & Hwords).
  assert (∃ ws, py_get (PyDict d) "words" (PyList []) ≫= py_iter = Ok ws
                ∧ Forall shaped_word ws) as (ws & Hws & Hshaped).
  { simpl. destruct Hwords as [-> | (ws & -> & Hshaped)]; simpl;
      [by exists [] | by exists ws]. }
  unfold ok_or_key_error, parse_segment. rewrite Hws.
  change (Ok ws ≫= ?k) with (k ws). cbv beta.
  destruct (parse_words_shaped ws Hshaped) as [[outs ->] | [key ->]];
    [|by right; exists key].
  simpl.
  destruct (d !! "segment_id"); simpl; [|by right; eexists].
  destruct (d !! "text"); simpl; [|by right; eexists].
  destruct (d !! "start_time"); simpl; [|by right; eexists].
  destruct (d !! "end_time"); simpl; [|by right; eexists].
  by left; eexists.
Qed.

Lemma parse_segments_shaped (l : list pyobj) (acc : list RawSegment) :
  Forall shaped_segment l →
  ok_or_key_error (for_append l parse_segment acc).
Proof.
  intros Hl. revert acc.
  induction Hl as [|x l Hx _ IH]; intros acc; [by left; eexists|].
  simpl.
  destruct (parse_segment_shaped x Hx) as [[seg ->] | [key ->]];
    [apply IH | by right; exists key].
Qed.

Lemma parse_alignment_shaped (talk_id : TalkId) (language : Language)
    (data : pyobj) :
  shaped data → ok_or_key_error (_parse_alignment talk_id language data).
Proof.
  intros (d & -> & Hsegments).
  assert (∃ l, py_get (PyDict d) "segments" (PyList []) ≫= py_iter = Ok l
               ∧ Forall shaped_segment l) as (l & Hl & Hshaped).
  { simpl. destruct Hsegments as [-> | (l & -> & Hshaped)]; simpl;
      [by exists [] | by exists l]. }
  unfold ok_or_key_error, _parse_alignment. rewrite Hl.
  change (Ok l ≫= ?k) with (k l). cbv beta.
  destruct (parse_segments_shaped l [] Hshaped) as [[segs ->] | [key ->]];
    [by left; eexists | by right; exists key].
Qed.

(** On such a document the parser succeeds only when every entry has its
    required fields. *)
Lemma parse_word_Ok_conforming (w : pyobj) (out : RawWord) :
  parse_word w = Ok out → conforming_word w.
Proof.
  intros (d & -> & Hword & Hst & Hen & _)%parse_word_Ok.
  exists d. by split_and!; [|eexists..].
Qed.

Lemma parse_segment_Ok_conforming (seg_data : pyobj) (seg : RawSegment) :
  shaped_segment seg_data →
  parse_segment seg_data = Ok seg → conforming_segment seg_data.
Proof.
  intros (d & -> & Hwords). unfold parse_segment.
  intros (ws & (v & Hget & Hiter)%result_bind_Ok
             & (words & Hmap%mapM_Ok
                & (segment_id & Hid & (text & Htext & (st & Hst
                   & (en & Hen & _)%result_bind_Ok)%result_bind_Ok)
                   %result_bind_Ok)%result_bind_Ok)%result_bind_Ok)
          %result_bind_Ok.
  assert (∀ key v', py_getitem (PyDict d) key = Ok v' → is_Some (d !! key))
    as Hkey.
  { intros key v'. simpl. by destruct (d !! key); [eexists|]. }
  exists d. split_and!; [done|by eapply Hkey..|].
  destruct Hwords as [Hnone | (ws' & Hsome & _)]; [by left|].
  right. exists ws'. split; [done|].
  simpl in Hget. rewrite Hsome in Hget. injection Hget as <-.
  simpl in Hiter. injection Hiter as <-.
  apply Forall_forall. intros w [i Hi]%list_elem_of_lookup.
  destruct (Forall2_lookup_l _ _ _ _ _ Hmap Hi) as (out & _ & Hout).
  by eapply parse_word_Ok_conforming.
Qed.

Lemma parse_alignment_Ok_conforming (talk_id : TalkId)
    (language : Language) (data : pyobj) (a : RawAlignment) :
  shaped data →
  _parse_alignment talk_id language data = Ok a → conforming data.
Proof.
  intros (d & -> & Hsegments) (_ & _ & Hall)%parse_alignment_Ok.
  exists d. split; [done|].
  destruct Hsegments as [Hnone | (l & Hsome & Hshaped)]; [by left|].
  right. exists l. split; [done|].
  simpl in Hall. rewrite Hsome in Hall.
  apply Forall_forall. intros x Hx.
  pose proof Hx as [i Hi]%list_elem_of_lookup.
  destruct (Forall2_lookup_l _ _ _ _ _ Hall Hi) as (seg & _ & Hseg).
  eapply parse_segment_Ok_conforming; [|done].
  by eapply Forall_forall in Hshaped.
Qed.

(* ===================================================================== *)
(** * Beyond the claims: [FileAlignmentRepository] *)
(* ===================================================================== *)

Section FileAlignmentRepositoryFacts.
Context {path text : Type} `{EqDecision path}.
Context (joinpath : path → string → path).
Context (dumps : pyobj → text) (loads : text → option pyobj).
Context (_talks_dir : path).

(** X6: [get_alignment] and [has_alignment] agree on a missing file: when
    [has_alignment] is false, [get_alignment] returns [None]; and an
    alignment that [get_alignment] returns comes from a file that
    [has_alignment] reports, and carries the talk and the language that
    were asked for. *)
Theorem get_alignment_has_alignment (files : path → option text)
    (talk_id : TalkId) (language : Language) :
  (has_alignment joinpath _talks_dir files talk_id language = false →
   get_alignment joinpath loads _talks_dir files talk_id language
   = Ok None)
  ∧ (∀ a,
       get_alignment joinpath loads _talks_dir files talk_id language
       = Ok (Some a) →
       has_alignment joinpath _talks_dir files talk_id language = true
       ∧ Alignment.talk_id a = talk_id
       ∧ Alignment.language a = language).
Proof.
  unfold has_alignment, get_alignment.
  destruct (files (alignment_path joinpath _talks_dir talk_id language))
    as [content|].
  - split.
    + intros Hfalse. apply bool_decide_eq_false in Hfalse.
      by destruct Hfalse.
    + intros a Hget. split; [by apply bool_decide_eq_true|].
      destruct (loads content) as [data|]; [|done].
      destruct (_parse_alignment talk_id language data) as [a'|e] eqn:Hparse.
      * injection Hget as <-.
        by apply parse_alignment_Ok in Hparse as (? & ? & _).
      * by destruct e.
  - split; [done|]. intros a [=].
Qed.

(** X7: a document that is decoded but is not an object ([null], a
    number, a string, a list) makes [get_alignment] raise
    [AttributeError]: the [except] clause does not catch it. *)
Theorem get_alignment_not_an_object (files : path → option text)
    (talk_id : TalkId) (language : Language) (content : text)
    (data : pyobj) :
  files (alignment_path joinpath _talks_dir talk_id language)
  = Some content →
  loads content = Some data →
  (∀ d, data ≠ PyDict d) →
  get_alignment joinpath loads _talks_dir files talk_id language
  = Raise AttributeError.
Proof.
  intros Hfile Hloads Hdata. unfold get_alignment.
  rewrite Hfile, Hloads.
  destruct data as [| | | | | |d]; try done. by destruct (Hdata d).
Qed.

(** X8: on a document with the shape of the schema, [get_alignment]
    never raises: it returns an alignment when every entry has its
    required fields, and [None] as soon as one required field is
    missing. *)
Theorem get_alignment_shaped (files : path → option text)
    (talk_id : TalkId) (language : Language) (content : text)
    (data : pyobj) :
  files (alignment_path joinpath _talks_dir talk_id language)
  = Some content →
  loads content = Some data →
  shaped data →
  (conforming data →
   ∃ a, get_alignment joinpath loads _talks_dir files talk_id language
        = Ok (Some a))
  ∧ (¬ conforming data →
     get_alignment joinpath loads _talks_dir files talk_id language
     = Ok None).
Proof.
  intros Hfile Hloads Hshaped. unfold get_alignment.
  rewrite Hfile, Hloads.
  destruct (parse_alignment_shaped talk_id language data Hshaped)
    as [[a Ha] | [key Hkey]].
  - rewrite Ha. split; [by exists a|].
    intros Hnot. destruct Hnot.
    by eapply parse_alignment_Ok_conforming.
  - rewrite Hkey. split; [|done].
    intros [a Ha]%(parse_alignment_conforming talk_id language).
    congruence.
Qed.

(** X9: after [save_alignment], when [json.loads] decodes what
    [json.dumps] wrote, [has_alignment] is true and [get_alignment]
    returns the alignment that was saved, for its talk and its
    language. *)
Theorem save_then_get {Str Num : Type} (str_obj : Str → pyobj)
    (num_obj : Num → pyobj) (generated_at : string)
    (files : path → option text) (a : Alignment.t Str Num) :
  loads (dumps (alignment_data str_obj num_obj generated_at a))
  = Some (alignment_data str_obj num_obj generated_at a) →
  let files' :=
    save_alignment joinpath dumps _talks_dir str_obj num_obj
      generated_at files a in
  has_alignment joinpath _talks_dir files'
    (Alignment.talk_id a) (Alignment.language a) = true
  ∧ get_alignment joinpath loads _talks_dir files'
      (Alignment.talk_id a) (Alignment.language a)
    = Ok (Some (alignment_objects str_obj num_obj a)).
Proof.
  intros Hcodec files'. unfold has_alignment, get_alignment.
  subst files'. unfold save_alignment. rewrite decide_True by done.
  split; [by apply bool_decide_eq_true|].
  by rewrite Hcodec, parse_alignment_data.
Qed.


End FileAlignmentRepositoryFacts.

(** A document that follows the schema has its shape. *)
Lemma conforming_shaped (data : pyobj) : conforming data → shaped data.
Proof.
  intros (d & -> & Hsegments). exists d. split; [done|].
  destruct Hsegments as [Hnone | (l & Hl & Hconf)]; [by left|].
  right. exists l. split; [done|].
  eapply Forall_impl; [exact Hconf|].
  intros x (d' & -> & _ & _ & _ & _ & Hwords). exists d'. split; [done|].
  destruct Hwords as [Hnone | (ws & Hws & Hwconf)]; [by left|].
  right. exists ws. split; [done|].
  eapply Forall_impl; [exact Hwconf|].
  intros w (d'' & -> & _). by exists d''.
Qed.

Lemma get_alignment_has_alignment_witness :
  has_alignment Disk.joinpath Disk.talks_dir Disk.no_files Disk.oaks ENGLISH
  = false
  ∧ get_alignment Disk.joinpath Disk.loads Disk.talks_dir Disk.no_files
      Disk.oaks ENGLISH
    = Ok None.
Proof.
  split; [reflexivity|].
  apply (proj1 (get_alignment_has_alignment Disk.joinpath Disk.loads
                  Disk.talks_dir Disk.no_files Disk.oaks ENGLISH)).
  reflexivity.
Defined.

Lemma get_alignment_not_an_object_witness :
  get_alignment Disk.joinpath Disk.loads Disk.talks_dir
    (Disk.one_file (PyList [])) Disk.oaks ENGLISH
  = Raise AttributeError.
Proof.
  apply (get_alignment_not_an_object Disk.joinpath Disk.loads
           Disk.talks_dir (Disk.one_file (PyList [])) Disk.oaks ENGLISH
           (PyList []) (PyList [])).
  - reflexivity.
  - reflexivity.
  - intros d Hd. discriminate Hd.
Defined.

Lemma hollow_shaped : shaped Disk.hollow.
Proof.
  eexists. split; [reflexivity|]. right. eexists.
  split; [by vm_compute|].
  repeat constructor. eexists. split; [reflexivity|]. by left.
Defined.

Lemma hollow_not_conforming : ¬ conforming Disk.hollow.
Proof.
  intros (d & Hd & Hsegments). injection Hd as <-.
  destruct Hsegments as [Hnone | (l & Hl & Hconf)];
    [by vm_compute in Hnone|].
  vm_compute in Hl. injection Hl as <-.
  apply Forall_cons in Hconf as [(d' & Hd' & [v Hv] & _) _].
  injection Hd' as <-. by vm_compute in Hv.
Defined.

Lemma get_alignment_shaped_witness :
  get_alignment Disk.joinpath Disk.loads Disk.talks_dir
    (Disk.one_file Disk.hollow) Disk.oaks ENGLISH
  = Ok None
  ∧ ∃ a, get_alignment Disk.joinpath Disk.loads Disk.talks_dir
           (Disk.one_file Scenario.document) Disk.oaks ENGLISH
         = Ok (Some a).
Proof.
  split.
  - apply (proj2 (get_alignment_shaped Disk.joinpath Disk.loads
                    Disk.talks_dir (Disk.one_file Disk.hollow) Disk.oaks
                    ENGLISH Disk.hollow Disk.hollow eq_refl eq_refl
                    hollow_shaped)).
    exact hollow_not_conforming.
  - apply (proj1 (get_alignment_shaped Disk.joinpath Disk.loads
                    Disk.talks_dir (Disk.one_file Scenario.document)
                    Disk.oaks ENGLISH Scenario.document Scenario.document
                    eq_refl eq_refl
                    (conforming_shaped _ document_conforming))).
    exact document_conforming.
Defined.

Lemma save_then_get_witness :
  get_alignment Disk.joinpath Disk.loads Disk.talks_dir
    (save_alignment Disk.joinpath Disk.dumps Disk.talks_dir PyStr PyFloat
       "2026-01-01T00:00:00" Disk.no_files Scenario.sample)
    Disk.oaks ENGLISH
  = Ok (Some (alignment_objects PyStr PyFloat Scenario.sample)).
Proof.
  apply (save_then_get Disk.joinpath Disk.dumps Disk.loads Disk.talks_dir
           PyStr PyFloat "2026-01-01T00:00:00" Disk.no_files
           Scenario.sample).
  reflexivity.
Defined.


(* ===================================================================== *)
(** * Beyond the claims: [FileTalkRepository] *)
(* ===================================================================== *)

Section FileTalkRepositoryFacts.
Context (lower suffix : string → string).

Lemma find_file_scan_find (entries : list (string * node))
    (extension : string) :
  find_file_scan lower suffix entries extension
  = snd <$> list_find (has_extension lower suffix extension) entries.
Proof.
  induction entries as [|file entries IH]; [done|]. simpl.
  destruct (String.eqb_spec (lower (suffix file.1)) (lower extension))
    as [Heq | Hne]; simpl.
  - destruct (is_file file.2) eqn:Hfile.
    + by rewrite decide_True.
    + rewrite decide_False by (intros [_ H]; congruence).
      rewrite IH. by destruct (list_find _ entries) as [[]|].
  - rewrite decide_False by (by intros [H _]).
    rewrite IH. by destruct (list_find _ entries) as [[]|].
Qed.

(** X11: in a directory, [_find_file] returns the first entry, in the
    order of the listing, that is a regular file whose suffix is the
    extension up to case; it returns [None] exactly when there is no such
    entry. *)
Theorem find_file_first (entries : list (string * node))
    (extension : string) :
  (∀ file,
     _find_file lower suffix (Some (Dir entries)) extension
     = inr (Some file)
     ↔ ∃ i, first_at (has_extension lower suffix extension) entries i file)
  ∧ (_find_file lower suffix (Some (Dir entries)) extension = inr None
     ↔ ∀ file, file ∈ entries →
               ¬ has_extension lower suffix extension file).
Proof.
  unfold _find_file. rewrite find_file_scan_find. split.
  - intros file. unfold first_at. split.
    + intros [= Hfind]. apply fmap_Some in Hfind as [[i f] [Hfind ->]].
      exists i. by apply list_find_Some in Hfind.
    + intros [i Hfirst]. f_equal. apply fmap_Some. exists (i, file).
      split; [by apply list_find_Some|done].
  - split.
    + intros [= Hfind]. apply fmap_None, list_find_None in Hfind.
      by apply Forall_forall.
    + intros Hnone. f_equal. apply fmap_None, list_find_None.
      by apply Forall_forall.
Qed.

(** Some file is found exactly when the directory holds one. *)
Lemma find_file_holds (entries : list (string * node))
    (extension : string) :
  is_Some (find_file_scan lower suffix entries extension)
  ↔ holds_file lower suffix (Dir entries) extension.
Proof.
  rewrite find_file_scan_find. unfold holds_file. split.
  - intros [file [[i f] [Hfind ->]]%fmap_Some].
    apply list_find_Some in Hfind as (Hi & [Hsuffix Hfile] & _).
    destruct f as [name [content|sub]]; [|done].
    exists name, content. split; [|done].
    by eapply list_elem_of_lookup_2.
  - intros (name & content & Hin & Hsuffix).
    destruct (list_find_elem_of (has_extension lower suffix extension)
                entries (name, File content)) as [[i f] Hfind];
      [done|by split|].
    rewrite Hfind. by eexists.
Qed.

(** One iteration of the loop of [get_available_languages]: the
    languages grow by the language of the entry, when the entry stands for
    one. *)
Lemma available_scan_elem (entries : list (string * node))
    (languages : list Language) (lang : Language) :
  lang ∈ available_scan lower suffix entries languages
  ↔ lang ∈ languages
    ∨ ∃ entry, entry ∈ entries ∧ entry_lists lower suffix entry lang.
Proof.
  revert languages.
  induction entries as [|[name d] entries IH]; intros languages.
  { simpl. split; [by left|]. intros [H | (e & He & _)]; [done|].
    by apply elem_of_nil in He. }
  assert (∀ acc,
            (lang ∈ acc ↔ lang ∈ languages
                          ∨ entry_lists lower suffix (name, d) lang) →
            lang ∈ available_scan lower suffix entries acc
            ↔ lang ∈ languages
              ∨ ∃ entry, entry ∈ (name, d) :: entries
                         ∧ entry_lists lower suffix entry lang) as Hstep.
  { intros acc Hacc. rewrite IH, Hacc. split.
    - intros [[H | H] | (e & He & Hl)].
      + by left.
      + right. exists (name, d). split; [by left|done].
      + right. exists e. split; [by right|done].
    - intros [H | (e & [-> | He]%elem_of_cons & Hl)].
      + by left; left.
      + by left; right.
      + right. by exists e. }
  assert (∀ P : Prop, ¬ P → (lang ∈ languages ↔ lang ∈ languages ∨ P))
    as Hskip by tauto.
  simpl. destruct d as [content|files]; simpl.
  { apply Hstep, Hskip. by intros [H _]. }
  destruct (starts_with_dot name) eqn:Hdot; simpl.
  { apply Hstep, Hskip. intros (_ & H & _). simpl in H. congruence. }
  destruct (from_code lower name) as [e|l] eqn:Hcode.
  { apply Hstep, Hskip. intros (_ & _ & H & _). simpl in H.
    apply from_code_inr in H. congruence. }
  apply from_code_inr in Hcode.
  pose proof (find_file_holds files ".txt") as Htxt.
  pose proof (find_file_holds files ".mp3") as Hmp3.
  destruct (find_file_scan lower suffix files ".txt") as [txt|].
  - destruct (find_file_scan lower suffix files ".mp3") as [mp3|].
    + apply Hstep. rewrite elem_of_app, list_elem_of_singleton.
      apply or_iff_compat_l. split.
      * intros ->. split_and!; [done|done|done|..].
        -- apply Htxt. by eexists.
        -- apply Hmp3. by eexists.
      * intros (_ & _ & Hlang & _). simpl in Hlang.
        apply Language_value_inj. congruence.
    + apply Hstep, Hskip. intros (_ & _ & _ & _ & H).
      apply Hmp3 in H. by destruct H.
  - apply Hstep, Hskip. intros (_ & _ & _ & H & _).
    apply Htxt in H. by destruct H.
Qed.

(** X12: the languages [get_available_languages] returns for a talk
    directory are those some entry stands for: a directory whose name does
    not start with a full stop, whose lower-cased name is the code of the
    language, and which holds a regular file with suffix [.txt] and one
    with suffix [.mp3], up to case. A talk directory that is missing has
    no language. *)
Theorem get_available_languages_lists (entries : list (string * node)) :
  get_available_languages lower suffix None = inr []
  ∧ ∃ languages,
      get_available_languages lower suffix (Some (Dir entries))
      = inr languages
      ∧ ∀ lang,
          lang ∈ languages
          ↔ ∃ entry, entry ∈ entries
                     ∧ entry_lists lower suffix entry lang.
Proof.
  split; [done|]. eexists. split; [reflexivity|].
  intros lang. rewrite available_scan_elem. split.
  - intros [H | H]; [by apply elem_of_nil in H|done].
  - by right.
Qed.

End FileTalkRepositoryFacts.

Section GetVersionFacts.
Context (lower suffix path_str : string → string).

Lemma child_Some (entries : list (string * node)) (name : string)
    (n : node) :
  child (Dir entries) name = Some n → (name, n) ∈ entries.
Proof.
  unfold child. intros [[i [name' n']] [Hfind ->]]%fmap_Some.
  apply list_find_Some in Hfind as (Hi & Hname & _). simpl in Hname.
  subst name'. by eapply list_elem_of_lookup_2.
Qed.

Lemma Language_value_no_dot (lang : Language) :
  starts_with_dot (Language_value lang) = false.
Proof. by destruct lang. Qed.

(** X13: a version that [get_version] returns is a version of a language
    that [get_available_languages] lists for the same talk directory, as
    soon as [str.lower] leaves the value of the language as it is. *)
Theorem get_version_listed (talk_dir : node) (talk_id : TalkId)
    (language : Language) (version : TalkVersion.t) :
  lower (Language_value language) = Language_value language →
  get_version lower suffix path_str (Some talk_dir) talk_id language
  = inr (Some version) →
  ∃ languages,
    get_available_languages lower suffix (Some talk_dir) = inr languages
    ∧ language ∈ languages.
Proof.
  intros Hlower Hversion. unfold get_version in Hversion. simpl in Hversion.
  destruct talk_dir as [content|entries]; [done|].
  eexists. split; [reflexivity|]. apply available_scan_elem. right.
  destruct (child (Dir entries) (Language_value language))
    as [lang_dir|] eqn:Hchild; [|done].
  apply child_Some in Hchild.
  exists (Language_value language, lang_dir). split; [done|].
  destruct lang_dir as [content|files]; [done|].
  simpl in Hversion.
  pose proof (find_file_holds lower suffix files ".txt") as Htxt.
  pose proof (find_file_holds lower suffix files ".mp3") as Hmp3.
  destruct (find_file_scan lower suffix files ".txt") as [[]|]; [|done].
  destruct (find_file_scan lower suffix files ".mp3") as [[]|]; [|done].
  split_and!; [done|apply Language_value_no_dot|done|..].
  - apply Htxt. by eexists.
  - apply Hmp3. by eexists.
Qed.


End GetVersionFacts.

Lemma find_file_first_witness :
  _find_file lower_ascii Disk.suffix (Some Disk.eng_dir) ".txt"
  = inr (Some ("talk.TXT", File "Hello world")).
Proof.
  apply (proj1 (find_file_first lower_ascii Disk.suffix
                  [("alignment.json", File "{}");
                   ("talk.TXT", File "Hello world"); ("talk.mp3", File "")]
                  ".txt")).
  exists 1. split; [reflexivity|]. split; [by split|].
  intros j y Hj Hlt [Hsuffix _].
  destruct j as [|j]; [|lia]. injection Hj as <-. discriminate Hsuffix.
Defined.


Lemma get_version_listed_witness :
  ∃ languages,
    get_available_languages lower_ascii Disk.suffix (Some Disk.talk_dir)
    = inr languages
    ∧ ENGLISH ∈ languages.
Proof.
  refine (get_version_listed lower_ascii Disk.suffix Disk.path_str
            Disk.talk_dir Disk.oaks ENGLISH _ eq_refl _).
  reflexivity.
Defined.

(* ===================================================================== *)
(** * Beyond the claims: the index grows with the time *)
(* ===================================================================== *)

(** X15: on well-formed segments, [get_segment_index_at_time] is
    monotone: of two times with [t1 <= t2] that are both found, the
    earlier is found at an index that is at most the index of the
    later. *)
Theorem segmentIndexAt_monotone (a : Index) (t1 t2 : float) (i j : nat) :
  well_formed (Alignment.segments a) →
  PyFloat.le t1 t2 = true →
  segmentIndexAt a t1 = Some i →
  segmentIndexAt a t2 = Some j →
  i ≤ j.
Proof.
  intros Hwf Hle [si (Hi & [Hi1 Hi2] & Hmin)]%segmentIndexAt_Some
    [sj (Hj & [Hj1 Hj2] & _)]%segmentIndexAt_Some.
  destruct (decide (i ≤ j)) as [|Hgt]; [done|].
  destruct (Hmin j sj Hj); [lia|]. split.
  - eapply PyFloatFacts.le_trans;
      [by eapply (well_formed_interval _ j sj)|].
    eapply PyFloatFacts.le_trans; [|exact Hi1].
    eapply (well_formed_ordered _ j i); [done..|lia].
  - exact (PyFloatFacts.le_trans _ _ _ Hle Hj2).
Qed.

Lemma segmentIndexAt_monotone_witness :
  segmentIndexAt Scenario.sample (Scenario.f 2.5) = Some 0
  ∧ segmentIndexAt Scenario.sample (Scenario.f 3.0) = Some 1
  ∧ 0 ≤ 1.
Proof.
  split; [reflexivity|]. split; [reflexivity|].
  apply (segmentIndexAt_monotone Scenario.sample (Scenario.f 2.5)
           (Scenario.f 3.0) 0 1).
  - simpl. repeat split; reflexivity.
  - reflexivity.
  - reflexivity.
  - reflexivity.
Defined.

Lemma get_available_languages_lists_witness :
  ∃ languages,
    get_available_languages lower_ascii Disk.suffix (Some Disk.talk_dir)
    = inr languages
    ∧ ENGLISH ∈ languages
    ∧ CZECH ∉ languages.
Proof.
  destruct (get_available_languages_lists lower_ascii Disk.suffix
              [(".git", Dir []); ("notes", File ""); ("eng", Disk.eng_dir)])
    as (_ & languages & Hlanguages & Hlisted).
  exists languages. split; [exact Hlanguages|]. split.
  - apply Hlisted. exists ("eng", Disk.eng_dir). split.
    + apply list_elem_of_In. right. right. by left.
    + split_and!; try reflexivity.
      * exists "talk.TXT", "Hello world". unfold Disk.eng_dir. simpl.
        split; [|reflexivity].
        apply list_elem_of_In. right. by left.
      * exists "talk.mp3", "". unfold Disk.eng_dir. simpl.
        split; [|reflexivity].
        apply list_elem_of_In. right. right. by left.
  - intros (entry & Hentry & Hdir & _ & Hname & _)%Hlisted.
    apply list_elem_of_In in Hentry.
    destruct Hentry as [<- | [<- | [<- | []]]];
      [discriminate Hname | discriminate Hdir | discriminate Hname].
Defined.

(* ===================================================================== *)
(** * Beyond the claims: documents without segments *)
(* ===================================================================== *)

Lemma py_chars_nil (s : string) : py_chars s = [] → s = "".
Proof. by destruct s. Qed.

(** X16: the parser returns an alignment without segments exactly when
    the document is an object whose ["segments"] is missing or is empty,
    be it an empty list, an empty string or an empty object. *)
Theorem parse_no_segments (talk_id : TalkId) (language : Language)
    (data : pyobj) :
  _parse_alignment talk_id language data
  = Ok (Alignment.mk _ _ talk_id language [])
  ↔ ∃ d, data = PyDict d
         ∧ (d !! "segments" = None
            ∨ d !! "segments" = Some (PyList [])
            ∨ d !! "segments" = Some (PyStr "")
            ∨ d !! "segments" = Some (PyDict ∅)).
Proof.
  split.
  - unfold _parse_alignment.
    intros (xs & (v & Hget & Hiter)%result_bind_Ok
            & (segs & (ys & Hys & Hall)%for_append_Ok & Ha)
              %result_bind_Ok)%result_bind_Ok.
    injection Ha as ->. simpl in Hys. subst ys.
    apply Forall2_nil_inv_r in Hall as ->.
    destruct data as [| | | | | |d]; try done. exists d. split; [done|].
    simpl in Hget. destruct (d !! "segments") as [v'|]; [|by left].
    injection Hget as <-. right.
    destruct v' as [| | | |s|l|d']; simpl in Hiter; try done;
      injection Hiter as Hnil.
    + right; left. by rewrite (py_chars_nil s Hnil).
    + left. by rewrite Hnil.
    + right; right. do 2 f_equal.
      apply fmap_nil_inv, fmap_nil_inv in Hnil.
      by apply map_to_list_empty_iff.
  - intros (d & -> & [H | [H | [H | H]]]);
      unfold _parse_alignment; simpl; by rewrite H.
Qed.

Lemma parse_no_segments_witness :
  _parse_alignment Disk.oaks ENGLISH (PyDict {[ "segments" := PyStr "" ]})
  = Ok (Alignment.mk _ _ Disk.oaks ENGLISH []).
Proof.
  apply (proj2 (parse_no_segments Disk.oaks ENGLISH _)).
  eexists. split; [reflexivity|]. right; right; left. reflexivity.
Defined.
